(** * fashion_dashboard.py: schema normalizer, category filter and metrics

    A shallow embedding of the Streamlit dashboard script
    [fashion_dashboard.py].  The script is sequential: it acquires a table
    (upload or database), normalizes its column names, filters the rows by
    category, and renders metrics, a trend chart, a forecast and the table.

    - Python strings are [string]s over ASCII; [strip], [lower], [contains]
      ([in]) and [capitalize] are the [str] methods the script calls.
    - A pandas [DataFrame] before normalization is a list of labelled
      columns; labels may repeat, as pandas allows.
    - The Streamlit calls are recorded in a trace; [st.stop()] and an
      uncaught exception end the run.
    - [pd.to_datetime] and [Prophet] are external: they are parameters. *)

From Stdlib Require Import ZArith List String Ascii Bool Arith Lia DecimalString.
Import ListNotations.
Local Open Scope string_scope.

(** ** Python [str] operations *)

Module Py.

(** [str.isspace] on one ASCII character: tab, newline, vertical tab, form
    feed, carriage return, the four separators 28..31 and the blank. *)
Definition isspace (c : ascii) : bool :=
  let n := nat_of_ascii c in
  (((9 <=? n) && (n <=? 13)) || ((28 <=? n) && (n <=? 32)))%nat.

Fixpoint lstrip (s : string) : string :=
  match s with
  | EmptyString => EmptyString
  | String c s' => if isspace c then lstrip s' else s
  end.

(** [rstrip] drops the trailing run of blanks: a blank is kept only when
    something survives after it. *)
Fixpoint rstrip (s : string) : string :=
  match s with
  | EmptyString => EmptyString
  | String c s' =>
      match rstrip s' with
      | EmptyString => if isspace c then EmptyString else String c EmptyString
      | r => String c r
      end
  end.

Definition strip (s : string) : string := rstrip (lstrip s).

Definition lower_char (c : ascii) : ascii :=
  let n := nat_of_ascii c in
  if ((65 <=? n) && (n <=? 90))%nat then ascii_of_nat (n + 32) else c.

Definition upper_char (c : ascii) : ascii :=
  let n := nat_of_ascii c in
  if ((97 <=? n) && (n <=? 122))%nat then ascii_of_nat (n - 32) else c.

Fixpoint lower (s : string) : string :=
  match s with
  | EmptyString => EmptyString
  | String c s' => String (lower_char c) (lower s')
  end.

(** [str.capitalize]: first character upper-cased, the rest lower-cased. *)
Definition capitalize (s : string) : string :=
  match s with
  | EmptyString => EmptyString
  | String c s' => String (upper_char c) (lower s')
  end.

(** [sub in s]. *)
Fixpoint contains (sub s : string) : bool :=
  prefix sub s ||
  match s with
  | EmptyString => false
  | String _ s' => contains sub s'
  end.

End Py.

(** ** Data *)

(** A [pandas.Timestamp] through its calendar fields (the dashboard only
    prints the day). *)
Record Timestamp := mkTimestamp { year : nat; month : nat; day : nat }.

(** A cell of a raw table. *)
Inductive value :=
| VInt (z : Z)
| VStr (s : string)
| VTime (t : Timestamp)
| VNaN.

(** A [DataFrame] as pandas stores it: labelled columns, in column order.
    Every column holds one cell per row. *)
Definition Series := list value.
Definition DataFrame := list (string * Series).

Definition columns (df : DataFrame) : list string := map fst df.

(** [df.columns = df.columns.str.strip().str.lower()] (lines 83 and 98). *)
Definition strip_lower (name : string) : string := Py.lower (Py.strip name).

Definition standardize_columns (df : DataFrame) : DataFrame :=
  map (fun c => (strip_lower (fst c), snd c)) df.

(** [df.rename(columns={old: new}, inplace=True)]: every column labelled
    [old] is relabelled; a label that is absent is ignored. *)
Definition rename (old new : string) (df : DataFrame) : DataFrame :=
  map (fun c => (if String.eqb (fst c) old then new else fst c, snd c)) df.

(** [df[name]] selects every column carrying the label. *)
Definition getitem (name : string) (df : DataFrame) : list Series :=
  map snd (filter (fun c => String.eqb (fst c) name) df).

(** [df[name] = data] for a label that is present. *)
Definition setitem (name : string) (data : Series) (df : DataFrame) : DataFrame :=
  map (fun c => if String.eqb (fst c) name then (fst c, data) else c) df.

(** [[col for col in df.columns if key in col]]. *)
Definition matching (key : string) (df : DataFrame) : list string :=
  filter (Py.contains key) (columns df).

(** ** The run of the script: trace, [st.stop()], exceptions *)

Inductive exn :=
| AttributeError   (* [None] has no attribute [columns] *)
| KeyError         (* a label that is not in the frame *)
| ValueError       (* [pd.to_datetime] cannot convert *)
| ParserError      (* [pd.read_csv] *)
| ProphetError.    (* fit or predict of the forecasting model *)

Inductive result (A : Type) :=
| Done (a : A)
| Stopped
| Raised (e : exn).
Arguments Done {A} a.
Arguments Stopped {A}.
Arguments Raised {A} e.

Section ScriptMonad.

Variable event : Type.

Definition Script (A : Type) : Type := (list event * result A)%type.

Definition ret {A} (a : A) : Script A := ([], Done a).

Definition bind {A B} (m : Script A) (f : A -> Script B) : Script B :=
  match m with
  | (tr, Done a) => let (tr', r) := f a in ((tr ++ tr')%list, r)
  | (tr, Stopped) => (tr, Stopped)
  | (tr, Raised e) => (tr, Raised e)
  end.

Definition emit (e : event) : Script unit := ([e], Done tt).
Definition stop {A} : Script A := ([], Stopped).
Definition raise {A} (e : exn) : Script A := ([], Raised e).

Definition trace {A} (m : Script A) : list event := fst m.
Definition outcome {A} (m : Script A) : result A := snd m.

End ScriptMonad.

Arguments ret {event A} a.
Arguments bind {event A B} m f.
Arguments emit {event} e.
Arguments stop {event A}.
Arguments raise {event A} e.
Arguments trace {event A} m.
Arguments outcome {event A} m.

Declare Scope script_scope.
Delimit Scope script_scope with script.
Notation "x <- m ;; k" := (bind m (fun x => k))
  (at level 61, m at next level, right associativity) : script_scope.
Notation "m ;; k" := (bind m (fun _ => k))
  (at level 61, right associativity) : script_scope.
Local Open Scope script_scope.

(** ** The normalized table, as the dashboard reads it

    After normalization the script reads three columns: [Date]
    (timestamps), [Category] (labels) and [Sales].  [Sales] is the integer
    column pandas builds from integer input: its element type is [int64]. *)

Record SalesRecord := mkRecord {
  Date : Timestamp;
  Category : string;
  Sales : Z
}.

(** Rows carry their index label: filtering keeps the labels of the rows it
    keeps, and [idxmax] and [.loc] speak in labels. *)
Definition SalesTable := list (nat * SalesRecord).

(** [pd.read_csv] and [pd.DataFrame(rows)] number the rows 0, 1, 2, ... *)
Definition RangeIndex (rows : list SalesRecord) : SalesTable :=
  combine (seq 0 (List.length rows)) rows.

Definition empty (df : SalesTable) : bool :=
  match df with [] => true | _ => false end.

(** *** [int64] arithmetic of a pandas integer column

    [pd.read_csv] and [pd.DataFrame(rows)] store whole numbers in a column
    of element type [int64].  Sums over such a column are computed in
    [int64] as well: a result outside -2^63 .. 2^63-1 wraps around, and
    nothing is raised.  Sales given with a fractional part (a [float64]
    column) are not covered here. *)

Definition int64_min : Z := - 2 ^ 63.
Definition int64_max : Z := 2 ^ 63 - 1.

Definition wrap64 (z : Z) : Z := (z + 2 ^ 63) mod 2 ^ 64 - 2 ^ 63.

(** [Series.sum()] on [int64]: the accumulator is an [int64] too. *)
Definition Series_sum (xs : list Z) : Z :=
  fold_left (fun acc x => wrap64 (acc + x)) xs 0%Z.

(** [Series.idxmax()]: the label of the first occurrence of the maximum;
    on an empty series pandas raises ([None]).  The scan replaces the best
    entry so far only by a strictly larger one. *)
Definition keep_max {L : Type} (best x : L * Z) : L * Z :=
  if (snd best <? snd x)%Z then x else best.

Definition idxmax {L : Type} (s : list (L * Z)) : option L :=
  match s with
  | [] => None
  | first :: rest => Some (fst (fold_left keep_max rest first))
  end.

(** [Series.unique()]: distinct values in order of first appearance. *)
Fixpoint unique_from (seen : list string) (l : list string) : list string :=
  match l with
  | [] => []
  | x :: l' =>
      if existsb (String.eqb x) seen then unique_from seen l'
      else x :: unique_from (x :: seen) l'
  end.

Definition unique (l : list string) : list string := unique_from [] l.

Definition isin (c : string) (l : list string) : bool :=
  existsb (String.eqb c) l.

(** *** Category selection and filter (lines 123-132) *)

Definition selected_categories (checkbox : string -> bool)
    (sales_data : SalesTable) : list string :=
  if negb (empty sales_data) then
    filter checkbox (unique (map (fun r => Category (snd r)) sales_data))
  else [].

(** Line 132: the mask [isin(selected_categories)] when something is
    selected, [sales_data.iloc[0:0]] otherwise. *)
Definition filter_rows (selected : list string) (sales_data : SalesTable)
    : SalesTable :=
  match selected with
  | [] => []
  | _ => filter (fun r => isin (Category (snd r)) selected) sales_data
  end.

Definition filtered_data (checkbox : string -> bool)
    (sales_data : SalesTable) : SalesTable :=
  filter_rows (selected_categories checkbox sales_data) sales_data.

(** *** Metrics (lines 139-141) *)

Definition str_of_Z (z : Z) : string := NilZero.string_of_int (Z.to_int z).

Definition total_sales (fd : SalesTable) : Z :=
  Series_sum (map (fun r => Sales (snd r)) fd).

Definition total_sales_metric (fd : SalesTable) : string :=
  str_of_Z (total_sales fd) ++ " units".

(** [groupby("Category")["Sales"].sum()]: one entry per category, the
    group keys sorted, each with the sum of its rows. *)
Fixpoint insert_sorted (k : string) (l : list string) : list string :=
  match l with
  | [] => [k]
  | x :: l' => if String.leb k x then k :: l else x :: insert_sorted k l'
  end.

Definition sort_keys (l : list string) : list string :=
  fold_right insert_sorted [] l.

Definition group_sum (fd : SalesTable) (k : string) : Z :=
  Series_sum (map (fun r => Sales (snd r))
                  (filter (fun r => String.eqb (Category (snd r)) k) fd)).

Definition groupby_sum (fd : SalesTable) : list (string * Z) :=
  map (fun k => (k, group_sum fd k))
      (sort_keys (unique (map (fun r => Category (snd r)) fd))).

Definition top_category (fd : SalesTable) : result string :=
  if negb (empty fd) then
    match idxmax (groupby_sum fd) with
    | Some k => Done k
    | None => Raised ValueError
    end
  else Done "N/A".

(** [ts.strftime('%Y-%m-%d')], which hands the format to the C library:
    [%Y] is the year in decimal with the digits it has and no padding,
    [%m] and [%d] are two digits with a leading zero. *)
Definition str_of_N (n : N) : string :=
  NilEmpty.string_of_uint (N.to_uint n).

Definition str_of_nat (n : nat) : string := str_of_N (N.of_nat n).

Definition zero_padded (n : nat) : string :=
  if (n <? 10)%nat then "0" ++ str_of_nat n else str_of_nat n.

Definition strftime (t : Timestamp) : string :=
  str_of_nat (year t) ++ "-" ++ zero_padded (month t)
  ++ "-" ++ zero_padded (day t).

(** [df.loc[label, "Date"]]: the rows carrying the label. *)
Definition loc (label : nat) (fd : SalesTable) : list SalesRecord :=
  map snd (filter (fun r => Nat.eqb (fst r) label) fd).

(** Line 141.  [.loc] yields a scalar timestamp only when one row carries
    the label; a series has no [strftime]. *)
Definition highest_sales_day (fd : SalesTable) : result string :=
  if negb (empty fd) then
    match idxmax (map (fun r => (fst r, Sales (snd r))) fd) with
    | Some label =>
        match loc label fd with
        | [r] => Done (strftime (Date r))
        | _ => Raised AttributeError
        end
    | None => Raised ValueError
    end
  else Done "N/A".

(** ** What the page shows *)

Inductive figure :=
| fig_trend (data : SalesTable)
    (* [px.line(filtered_data, x="Date", y="Sales", color="Category")] *)
| fig_forecast (history : list (Timestamp * Z)) (periods : nat).
    (* [px.line(forecast, x="ds", y="yhat")], the forecast being what the
       fitted model predicts for this history and horizon *)

(** The calls the script makes, in order.  The static decoration of lines
    8-33 (page configuration, style sheet, sidebar headings) is left out. *)
Inductive event :=
| sidebar_success (msg : string)
| sidebar_warning (msg : string)
| sidebar_error (msg : string)
| sidebar_subheader (msg : string)
| st_error (msg : string)
| st_write_list (label : string) (items : list string)
| st_write_frame (label : string) (df : DataFrame)
| st_title (msg : string)
| st_subheader (msg : string)
| st_metric (label : string) (val : string)
| st_plotly_chart (fig : figure)
| st_dataframe (df : SalesTable)
| prophet_fit (history : list (Timestamp * Z))
| prophet_predict (periods : nat).

Definition lift {A} (r : result A) : Script event A := ([], r).

(** ** Input acquisition (lines 36-79) *)

(** What the database answers to [SELECT * FROM table]: the rows, each a
    dictionary, or an error of the connector. *)
Inductive db_reply :=
| db_rows (rows : list (list (string * value)))
| db_error (e : string).

(** The widgets' values for one run. *)
Record widgets := mkWidgets {
  uploaded_file : option (option DataFrame);
      (* no file, or what [pd.read_csv] makes of it ([None]: it raises) *)
  use_db : bool;
  connect : bool;                 (* the Connect button was pressed *)
  database : db_reply;
  checkbox : string -> bool;      (* one box per category, by its label *)
  forecast_period : nat           (* the slider, 7..365 *)
}.

Fixpoint get (key : string) (row : list (string * value)) : value :=
  match row with
  | [] => VNaN
  | (k, v) :: row' => if String.eqb k key then v else get key row'
  end.

(** [pd.DataFrame(rows)] for a list of dictionaries: one column per key
    of any row, in the order in which the keys first appear, and [NaN]
    where a row lacks the key. *)
Definition DataFrame_of_rows (rows : list (list (string * value))) : DataFrame :=
  map (fun k => (k, map (get k) rows))
      (unique (List.concat (map (map fst) rows))).

Definition load_sales_data (w : widgets) : Script event (option DataFrame) :=
  if use_db w then
    if connect w then
      match database w with
      | db_rows rows =>
          match rows with
          | _ :: _ =>
              emit (sidebar_success "✅ Connected Successfully!") ;;
              ret (Some (DataFrame_of_rows rows))
          | [] =>
              emit (sidebar_warning "⚠️ No data found in the table!") ;;
              ret (Some [("Date", []); ("Category", []); ("Sales", [])])
          end
      | db_error e =>
          emit (sidebar_error ("❌ Connection Failed: " ++ e)) ;;
          stop
      end
    else ret None
  else
    match uploaded_file w with
    | Some (Some df) =>
        emit (sidebar_success "✅ File Uploaded Successfully!") ;;
        ret (Some df)
    | Some None => raise ParserError
    | None =>
        emit (sidebar_warning
                "Please upload a CSV file or connect to a database.") ;;
        stop
    end.

(** ** Schema normalizer (lines 83-116) *)

Section Normalizer.

(** [pd.to_datetime] on one column: the converted column, or [None] when
    it raises. *)
Variable to_datetime : Series -> option Series.

(** [df["Date"] = pd.to_datetime(df["Date"])] (lines 89 and 116).
    [df["Date"]] is a series when one column carries the label; with
    several it is a frame, which [pd.to_datetime] refuses (duplicate
    keys); with none the lookup itself fails. *)
Definition convert_date (df : DataFrame) : Script event DataFrame :=
  match getitem "Date" df with
  | [] => raise KeyError
  | [data] =>
      match to_datetime data with
      | Some data' => ret (setitem "Date" data' df)
      | None => raise ValueError
      end
  | _ => raise ValueError
  end.

(** Lines 101-105.  The three lists are built before the loop runs. *)
Definition column_map (df : DataFrame) : list (string * list string) :=
  [ ("date", matching "date" df);
    ("sales", matching "sales" df);
    ("category", matching "category" df) ].

(** The loop of lines 107-113. *)
Fixpoint rename_loop (items : list (string * list string))
    (df : DataFrame) : Script event DataFrame :=
  match items with
  | [] => ret df
  | (key, cols) :: items' =>
      match cols with
      | col0 :: _ => rename_loop items' (rename col0 (Py.capitalize key) df)
      | [] =>
          emit (st_error ("❌ No column related to '"
                          ++ Py.capitalize key ++ "' found.")) ;;
          emit (st_write_list "Available Columns:" (columns df)) ;;
          stop
      end
  end.

Definition normalize (sales_data : option DataFrame) : Script event DataFrame :=
  match sales_data with
  | None => raise AttributeError            (* line 83 on [None] *)
  | Some df =>
      let df := standardize_columns df in
      df <- match matching "date" df with
            | col0 :: _ => convert_date (rename col0 "Date" df)
            | [] =>
                emit (st_error "❌ No column related to 'Date' found.") ;;
                emit (st_write_list "Available Columns:" (columns df)) ;;
                stop
            end ;;
      let df := standardize_columns df in
      df <- rename_loop (column_map df) df ;;
      convert_date df
  end.

(** Lines 36-119: acquisition, normalization and the preview. *)
Definition head (df : DataFrame) : DataFrame :=
  map (fun c => (fst c, firstn 5 (snd c))) df.

Definition ingest (w : widgets) : Script event DataFrame :=
  sales_data <- load_sales_data w ;;
  df <- normalize sales_data ;;
  emit (st_write_frame "Fetched Data Preview:" (head df)) ;;
  ret df.

End Normalizer.

(** ** The page (lines 122-172) *)

Section Page.

(** [Prophet().fit(history)] and [predict] over the extended index are the
    library's: each either returns or raises. *)
Variable fit_raises : list (Timestamp * Z) -> bool.
Variable predict_raises : list (Timestamp * Z) -> nat -> bool.

(** Lines 153-168. *)
Definition forecast (periods : nat) (fd : SalesTable) : Script event unit :=
  if empty fd then
    emit (st_error "⚠️ No data available for forecasting.")
  else
    let df_prophet := map (fun r => (Date (snd r), Sales (snd r))) fd in
    emit (prophet_fit df_prophet) ;;
    if fit_raises df_prophet then raise ProphetError
    else
      emit (prophet_predict periods) ;;
      if predict_raises df_prophet periods then raise ProphetError
      else emit (st_plotly_chart (fig_forecast df_prophet periods)).

Definition page (w : widgets) (sales_data : SalesTable) : Script event unit :=
  emit (sidebar_subheader "📌 Select Categories to Display:") ;;
  let fd := filtered_data (checkbox w) sales_data in
  emit (st_title "📊 Fashion Demand Forecasting Dashboard") ;;
  emit (st_metric "Total Sales" (total_sales_metric fd)) ;;
  top <- lift (top_category fd) ;;
  emit (st_metric "Top Selling Category" top) ;;
  day <- lift (highest_sales_day fd) ;;
  emit (st_metric "Highest Sales Day" day) ;;
  emit (st_plotly_chart (fig_trend fd)) ;;
  emit (st_subheader "🔮 Future Sales Prediction") ;;
  forecast (forecast_period w) fd ;;
  emit (st_subheader "📋 Sales Data") ;;
  emit (st_dataframe fd).

End Page.

(** ** Vocabulary of the statements *)

(** [l1] is [l2] with some elements left out, the others in their order. *)
Inductive subsequence {A : Type} : list A -> list A -> Prop :=
| sub_nil : subsequence [] []
| sub_skip x l1 l2 : subsequence l1 l2 -> subsequence l1 (x :: l2)
| sub_keep x l1 l2 : subsequence l1 l2 -> subsequence (x :: l1) (x :: l2).

(** The sum in the integers, as opposed to [Series_sum]. *)
Definition arithmetic_sum (xs : list Z) : Z := fold_right Z.add 0%Z xs.

Definition fits_int64 (z : Z) : Prop := (int64_min <= z <= int64_max)%Z.

Definition sales_of (fd : SalesTable) : list Z :=
  map (fun r => Sales (snd r)) fd.

Definition categories_of (fd : SalesTable) : list string :=
  map (fun r => Category (snd r)) fd.

(** The integer sum of the sales of one category. *)
Definition category_total (fd : SalesTable) (c : string) : Z :=
  arithmetic_sum
    (sales_of (filter (fun r => String.eqb (Category (snd r)) c) fd)).

(** The Total Sales metric is the integer sum of the column. *)
Definition total_is_arithmetic_sum (fd : SalesTable) : Prop :=
  total_sales fd = arithmetic_sum (sales_of fd).

(** The Top Selling Category metric names a category of the table whose
    integer total no other category of the table exceeds. *)
Definition top_is_maximal (fd : SalesTable) : Prop :=
  exists k, top_category fd = Done k /\
            In k (categories_of fd) /\
            forall c, In c (categories_of fd) ->
                      (category_total fd c <= category_total fd k)%Z.

(** The shape [YYYY-MM-DD]. *)
Definition is_digit (c : ascii) : bool :=
  let n := nat_of_ascii c in ((48 <=? n) && (n <=? 57))%nat.

Definition is_hyphen (c : ascii) : bool := Ascii.eqb c "-"%char.

Definition is_iso_date (s : string) : bool :=
  match s with
  | String y1 (String y2 (String y3 (String y4 (String h1
      (String m1 (String m2 (String h2 (String d1 (String d2
        EmptyString))))))))) =>
      is_digit y1 && is_digit y2 && is_digit y3 && is_digit y4
      && is_hyphen h1 && is_digit m1 && is_digit m2
      && is_hyphen h2 && is_digit d1 && is_digit d2
  | _ => false
  end.

(** *** Tables used in the examples *)

Definition scenario_rows : list SalesRecord :=
  [ mkRecord (mkTimestamp 2023 1 1) "Dresses" 10;
    mkRecord (mkTimestamp 2023 1 2) "Dresses" 20;
    mkRecord (mkTimestamp 2023 1 1) "Shoes" 5 ].

Definition all_checked : string -> bool := fun _ => true.
Definition none_checked : string -> bool := fun _ => false.
Definition only (c : string) : string -> bool := fun x => String.eqb x c.

(** Two sales of 2^62 units in one category and one unit in another. *)
Definition overflow_rows : list SalesRecord :=
  [ mkRecord (mkTimestamp 2023 1 1) "Dresses" (2 ^ 62);
    mkRecord (mkTimestamp 2023 1 2) "Dresses" (2 ^ 62);
    mkRecord (mkTimestamp 2023 1 1) "Shoes" 1 ].

(** The diagnostic of line 154. *)
Definition no_data : event := st_error "⚠️ No data available for forecasting.".

(** *** The normalizer's statements *)

Definition fields : list string := ["date"; "sales"; "category"].

(** Column names after trimming and lower-casing. *)
Definition names_of (df : DataFrame) : list string :=
  map strip_lower (columns df).

(** Position of the first name that contains [key]. *)
Fixpoint first_match (key : string) (names : list string) : option nat :=
  match names with
  | [] => None
  | n :: names' =>
      if Py.contains key n then Some 0
      else option_map S (first_match key names')
  end.

Definition relabel (old new n : string) : string :=
  if String.eqb n old then new else n.

(** Normalization ends well and without a message, and for each field the
    column that carries the canonical name afterwards is exactly the first
    one whose name contains the field; the other columns keep their
    trimmed, lower-cased names. *)
Definition renames_first_matches (to_datetime : Series -> option Series)
    (df : DataFrame) : Prop :=
  exists df',
    normalize to_datetime (Some df) = ([], Done df') /\
    (forall key i, In key fields ->
       first_match key (names_of df) = Some i ->
       forall j, nth_error (columns df') j = Some (Py.capitalize key) <-> j = i) /\
    (forall j, (forall key, In key fields ->
                  first_match key (names_of df) <> Some j) ->
       nth_error (columns df') j = nth_error (names_of df) j).

(** The message of lines 91 and 111. *)
Definition missing_message (key : string) : event :=
  st_error ("❌ No column related to '" ++ Py.capitalize key ++ "' found.").

(** The labels of the table when the run stops, from the trimmed,
    lower-cased names.  Without a date column they are these names.  With
    one, the loop has first renamed it: Date stands for its name (and for
    the name "date"); and when another name contains "sales", so that the
    run stops on Category, Sales stands for the first such name. *)
Definition available_columns (names : list string) : list string :=
  match filter (Py.contains "date") names with
  | [] => names
  | col0 :: _ =>
      let dated n := if String.eqb n col0 || String.eqb n "date"
                     then "Date" else n in
      match filter (fun n => Py.contains "sales" n && negb (String.eqb n col0))
                   names with
      | [] => map dated names
      | s1 :: _ => map (fun n => relabel s1 "Sales" (dated n)) names
      end
  end.

(** The run stops after naming [key] and listing the labels of every
    column of the table. *)
Definition stops_reporting (to_datetime : Series -> option Series)
    (df : DataFrame) (key : string) : Prop :=
  normalize to_datetime (Some df)
  = ([missing_message key;
      st_write_list "Available Columns:" (available_columns (names_of df))],
     Stopped).

(** The first field, in the order of the script, that no column name
    contains. *)
Definition first_missing (names : list string) : option string :=
  find (fun key => match first_match key names with None => true | _ => false end)
       fields.

(** A table that lacks a field is refused with that field's name. *)
Definition reports_missing_field (to_datetime : Series -> option Series)
    (df : DataFrame) : Prop :=
  forall key, first_missing (names_of df) = Some key ->
              stops_reporting to_datetime df key.

(** The date column can be converted: one column carries the name of the
    first column containing "date", and [pd.to_datetime] accepts it. *)
Definition date_converts (to_datetime : Series -> option Series)
    (df : DataFrame) : Prop :=
  forall col0 cols, matching "date" (standardize_columns df) = col0 :: cols ->
    exists data data',
      getitem col0 (standardize_columns df) = [data] /\
      to_datetime data = Some data'.

(** The field the script reports: a column taken as the date column no
    longer counts for the fields that follow. *)
Definition reported_field (names : list string) : option string :=
  match filter (Py.contains "date") names with
  | [] => Some "date"
  | col0 :: _ =>
      let names' := map (relabel col0 "date") names in
      match first_match "sales" names' with
      | None => Some "sales"
      | Some _ =>
          match first_match "category" names' with
          | None => Some "category"
          | Some _ => None
          end
      end
  end.

(** *** A conversion to run the normalizer with

    Timestamps are kept and text of the form YYYY-MM-DD is read; anything
    else in the column makes the conversion fail. *)
Definition digit_of (c : ascii) : nat := nat_of_ascii c - 48.

Definition parse_iso (s : string) : option Timestamp :=
  match s with
  | String y1 (String y2 (String y3 (String y4 (String _
      (String m1 (String m2 (String _ (String d1 (String d2
        EmptyString))))))))) =>
      if is_iso_date s then
        let mo := 10 * digit_of m1 + digit_of m2 in
        let dd := 10 * digit_of d1 + digit_of d2 in
        if ((1 <=? mo) && (mo <=? 12) && (1 <=? dd) && (dd <=? 31))%nat then
          Some (mkTimestamp
                  (1000 * digit_of y1 + 100 * digit_of y2
                   + 10 * digit_of y3 + digit_of y4) mo dd)
        else None
      else None
  | _ => None
  end.

Definition iso_cell (v : value) : option value :=
  match v with
  | VTime t => Some (VTime t)
  | VStr s => option_map VTime (parse_iso s)
  | _ => None
  end.

Fixpoint iso_to_datetime (col : Series) : option Series :=
  match col with
  | [] => Some []
  | v :: col' =>
      match iso_cell v, iso_to_datetime col' with
      | Some v', Some col'' => Some (v' :: col'')
      | _, _ => None
      end
  end.

(** *** The day shown

    A calendar date whose year has four digits; every nanosecond
    timestamp, 1677 to 2262, is one. *)
Definition calendar_date (t : Timestamp) : bool :=
  ((1000 <=? year t) && (year t <? 10 * 1000)
   && (1 <=? month t) && (month t <=? 12)
   && (1 <=? day t) && (day t <=? 31))%nat.

(** [s] is [n] written with four digits, with two digits. *)
Definition reads4 (s : string) (n : N) : bool :=
  match s with
  | String c1 (String c2 (String c3 (String c4 EmptyString))) =>
      is_digit c1 && is_digit c2 && is_digit c3 && is_digit c4
      && (1000 * N.of_nat (digit_of c1) + 100 * N.of_nat (digit_of c2)
          + 10 * N.of_nat (digit_of c3) + N.of_nat (digit_of c4) =? n)%N
  | _ => false
  end.

(** The numbers [start], [start + 1], ..., [len] of them. *)
Fixpoint count_from (start : N) (len : nat) : list N :=
  match len with
  | O => []
  | S len' => start :: count_from (N.succ start) len'
  end.

Definition reads2 (s : string) (n : nat) : bool :=
  match s with
  | String c1 (String c2 EmptyString) =>
      is_digit c1 && is_digit c2 && (10 * digit_of c1 + digit_of c2 =? n)%nat
  | _ => false
  end.

(** The Highest Sales Day metric is the date of the first row, in table
    order, whose sale is the largest, written YYYY-MM-DD: the text has
    that shape and reads as that date. *)
Definition shows_first_max_day (fd : SalesTable) : Prop :=
  exists pre r post s,
    map snd fd = (pre ++ r :: post)%list /\
    Forall (fun x => (Sales x < Sales r)%Z) pre /\
    Forall (fun x => (Sales x <= Sales r)%Z) post /\
    highest_sales_day fd = Done s /\
    is_iso_date s = true /\
    parse_iso s = Some (Date r).

(** One sale, on 6 May 999. *)
Definition early_rows : list SalesRecord :=
  [ mkRecord (mkTimestamp 999 5 6) "Shoes" 5 ].

(** *** Raw tables used in the examples *)

Definition dates3 : Series :=
  [VStr "2023-01-01"; VStr "2023-01-02"; VStr "2023-01-01"].
Definition timestamps3 : Series :=
  [ VTime (mkTimestamp 2023 1 1); VTime (mkTimestamp 2023 1 2);
    VTime (mkTimestamp 2023 1 1) ].
Definition labels3 : Series := [VStr "Dresses"; VStr "Dresses"; VStr "Shoes"].
Definition units3 : Series := [VInt 10; VInt 20; VInt 5].
Definition stores3 : Series := [VStr "North"; VStr "North"; VStr "South"].

(** A plain export: three fields and one more column. *)
Definition plain_frame : DataFrame :=
  [ (" Order Date", dates3); ("Category ", labels3);
    ("Units Sales", units3); ("Store", stores3) ].

(** The first column containing "sales" is the date column. *)
Definition sales_date_frame : DataFrame :=
  [ ("Sales Date", dates3); ("Sales", units3); ("Category", labels3) ].

(** The first column containing "category" is the sales column. *)
Definition sales_category_frame : DataFrame :=
  [ ("Date", dates3); ("Sales_Category", units3); ("Category", labels3) ].

(** No column for the category; the date column also contains "sales". *)
Definition no_category_frame : DataFrame :=
  [ ("Sales Date", dates3); ("Store", stores3) ].

(** No column for the sales. *)
Definition no_sales_frame : DataFrame :=
  [ ("Date", dates3); ("Category", labels3) ].

(** The widgets with the database box ticked and Connect not pressed. *)
Definition db_ticked (file : option (option DataFrame)) : widgets :=
  mkWidgets file true false (db_error "") all_checked 30.

(** A string that does not begin with a blank. *)
Definition starts_clean (s : string) : bool :=
  match s with
  | EmptyString => true
  | String c _ => negb (Py.isspace c)
  end.

(** The end of a run that misses a field (lines 91-93 and 111-113). *)
Definition stop_missing (key : string) (df : DataFrame) : Script event DataFrame :=
  ([missing_message key; st_write_list "Available Columns:" (columns df)],
   Stopped).

(** The frame as the second pass finds it (line 98), the date column
    [col0] having been renamed and converted to [data]. *)
Definition second_pass_frame (col0 : string) (data : Series) (df : DataFrame)
    : DataFrame :=
  standardize_columns
    (setitem "Date" data (rename col0 "Date" (standardize_columns df))).

(** The name a column ends with when [d], [s] and [c] are the names of
    the first matches for the three fields. *)
Definition canonical_name (d s c n : string) : string :=
  if String.eqb n d then "Date"
  else if String.eqb n s then "Sales"
  else if String.eqb n c then "Category"
  else n.

(** Normalizing the normalized table gives the normalized table. *)
Definition idempotent_on (to_datetime : Series -> option Series)
    (df : DataFrame) : Prop :=
  forall df1,
    outcome (normalize to_datetime (Some df)) = Done df1 ->
    outcome (normalize to_datetime (Some df1)) = Done df1.

(** The three renamings of the loop, for first matches "date", [s], [c]. *)
Definition loop_name (s c n : string) : string :=
  relabel c "Category" (relabel s "Sales" (relabel "date" "Date" n)).

(** Besides the first match "Net Sales" there is a column called "Sales". *)
Definition net_sales_frame : DataFrame :=
  [ ("Date", dates3); ("Net Sales", units3); ("Sales", units3);
    ("Category", labels3) ].

Definition net_sales_normalized : DataFrame :=
  [ ("Date", timestamps3); ("Sales", units3); ("sales", units3);
    ("Category", labels3) ].

Definition plain_normalized : DataFrame :=
  [ ("Date", timestamps3); ("Category", labels3); ("Sales", units3);
    ("store", stores3) ].

(** *** Further vocabulary *)

(** The same widgets with another state of the file chooser. *)
Definition with_upload (file : option (option DataFrame)) (w : widgets) : widgets :=
  mkWidgets file (use_db w) (connect w) (database w) (checkbox w)
            (forecast_period w).

(** The frame line 65 builds when the query returns no row. *)
Definition empty_canonical : DataFrame :=
  [("Date", []); ("Category", []); ("Sales", [])].

(** A string that does not end with a blank, and a string of blanks. *)
Fixpoint ends_clean (s : string) : bool :=
  match s with
  | EmptyString => true
  | String c EmptyString => negb (Py.isspace c)
  | String _ s' => ends_clean s'
  end.

Fixpoint all_blank (s : string) : bool :=
  match s with
  | EmptyString => true
  | String c s' => Py.isspace c && all_blank s'
  end.

(** The names as the second pass reads them (line 98): the date column of
    the first pass reads "date". *)
Definition second_pass_names (names : list string) : list string :=
  match filter (Py.contains "date") names with
  | [] => names
  | col0 :: _ => map (relabel col0 "date") names
  end.

(** Two columns that read "date" once trimmed and lower-cased. *)
Definition two_dates_frame : DataFrame :=
  [ ("Date", dates3); ("date ", dates3); ("Sales", units3);
    ("Category", labels3) ].

(** A date column that holds no dates. *)
Definition bad_dates_frame : DataFrame :=
  [ ("Date", labels3); ("Store", stores3) ].

(** A list of keys in ascending order. *)
Fixpoint ascending (l : list string) : Prop :=
  match l with
  | [] => True
  | x :: l' => (forall y, In y l' -> String.leb x y = true) /\ ascending l'
  end.

(** Two categories with the same total. *)
Definition tie_rows : list SalesRecord :=
  [ mkRecord (mkTimestamp 2023 1 1) "Shoes" 20;
    mkRecord (mkTimestamp 2023 1 2) "Dresses" 5;
    mkRecord (mkTimestamp 2023 1 3) "Dresses" 15 ].

(** * Proofs *)

Example strip_ex : Py.strip "  Order Date " = "Order Date".
Proof. reflexivity. Qed.

Example lower_ex : Py.lower "Order Date" = "order date".
Proof. reflexivity. Qed.

Example capitalize_ex : Py.capitalize "category" = "Category".
Proof. reflexivity. Qed.

Example contains_ex : Py.contains "date" "order date" = true.
Proof. reflexivity. Qed.

Example scenario_all :
  let fd := filtered_data all_checked (RangeIndex scenario_rows) in
  total_sales_metric fd = "35 units" /\
  top_category fd = Done "Dresses" /\
  highest_sales_day fd = Done "2023-01-02".
Proof. repeat split; reflexivity. Qed.

Example scenario_shoes :
  let fd := filtered_data (only "Shoes") (RangeIndex scenario_rows) in
  List.length fd = 1 /\
  total_sales_metric fd = "5 units" /\
  top_category fd = Done "Shoes".
Proof. repeat split; reflexivity. Qed.

Example scenario_none :
  let fd := filtered_data none_checked (RangeIndex scenario_rows) in
  fd = [] /\
  total_sales_metric fd = "0 units" /\
  top_category fd = Done "N/A" /\
  highest_sales_day fd = Done "N/A".
Proof. repeat split; reflexivity. Qed.

(** ** Lists *)

Section ListFacts.

Context {A B : Type}.

Lemma subsequence_filter (p : A -> bool) (l : list A) :
  subsequence (filter p l) l.
Proof.
  induction l as [|x l IH]; simpl.
  - constructor.
  - destruct (p x); now constructor.
Qed.

Lemma map_snd_combine_seq (l : list A) :
  forall start, map snd (combine (seq start (List.length l)) l) = l.
Proof.
  induction l as [|x l IH]; intros start; simpl; [reflexivity|].
  now rewrite IH.
Qed.

Lemma map_fst_combine_seq (l : list A) :
  forall start,
    map fst (combine (seq start (List.length l)) l) = seq start (List.length l).
Proof.
  induction l as [|x l IH]; intros start; simpl; [reflexivity|].
  now rewrite IH.
Qed.

Lemma filter_keeps_distinct (keep : A -> bool) (label : A -> B) (t : list A)
  (Hdistinct : NoDup (map label t)) :
  NoDup (map label (filter keep t)).
Proof.
revert Hdistinct. induction t as [|r t IH]; simpl; intros Hnd; [constructor|].
inversion Hnd as [|? ? Hnotin Hnd']; subst.
destruct (keep r); simpl; auto.
constructor; auto.
intros Hin. apply Hnotin.
apply in_map_iff in Hin as (y & Hy & Hyin).
apply filter_In in Hyin as [Hyin _].
rewrite <- Hy. now apply in_map.
Qed.

End ListFacts.

Lemma isin_In (c : string) (l : list string) : isin c l = true <-> In c l.
Proof.
  unfold isin. rewrite existsb_exists. split.
  - intros (x & Hin & Heq). apply String.eqb_eq in Heq. now subst.
  - intros Hin. exists c. split; [assumption | apply String.eqb_refl].
Qed.

Lemma unique_from_In (l : list string) :
  forall seen x, In x (unique_from seen l) <-> In x l /\ ~ In x seen.
Proof.
  induction l as [|y l IH]; intros seen x; simpl.
  - tauto.
  - destruct (existsb (String.eqb y) seen) eqn:Hseen.
    + apply (isin_In y seen) in Hseen.
      rewrite IH. split.
      * intros [Hin Hn]. auto.
      * intros [[Heq | Hin] Hn]; [subst; contradiction | auto].
    + assert (Hy : ~ In y seen).
      { intros Hin. apply (isin_In y seen) in Hin.
        unfold isin in Hin. congruence. }
      simpl. rewrite IH. simpl. split.
      * intros [Heq | [Hin Hn]]; [subst; auto | ].
        split; [auto | intros Hs; apply Hn; auto].
      * intros [[Heq | Hin] Hn]; [auto|].
        destruct (String.eqb_spec y x) as [->|Hne]; [auto|].
        right. split; [assumption|]. intros [Heq | Hs]; auto.
  Qed.

Lemma unique_In (l : list string) (x : string) : In x (unique l) <-> In x l.
Proof.
  unfold unique. rewrite unique_from_In. simpl. tauto.
Qed.

Lemma RangeIndex_rows (rows : list SalesRecord) :
  map snd (RangeIndex rows) = rows.
Proof. apply map_snd_combine_seq. Qed.

Lemma RangeIndex_labels (rows : list SalesRecord) :
  NoDup (map fst (RangeIndex rows)).
Proof.
  unfold RangeIndex. rewrite map_fst_combine_seq. apply seq_NoDup.
Qed.

(** ** Category filter *)

(** Whatever the boxes say, the filter keeps the rows whose category is
    ticked. *)
Lemma filtered_data_checkbox (chk : string -> bool) (t : SalesTable) :
  filtered_data chk t = filter (fun r => chk (Category (snd r))) t.
Proof.
  unfold filtered_data, filter_rows.
  assert (Hsel : forall r, In r t ->
            isin (Category (snd r)) (selected_categories chk t)
            = chk (Category (snd r))).
  { intros r Hr. unfold selected_categories.
    destruct t as [|r0 t']; [contradiction|]. cbn [empty negb].
    apply eq_true_iff_eq. rewrite isin_In, filter_In, unique_In.
    split; [tauto|]. intros Hc. split; [|assumption].
    now apply (in_map (fun r => Category (snd r))). }
  destruct (selected_categories chk t) as [|c sel] eqn:Hs.
  - destruct (filter (fun r => chk (Category (snd r))) t) as [|r l] eqn:Hf;
      [reflexivity|].
    assert (Hin : In r (filter (fun r => chk (Category (snd r))) t))
      by (rewrite Hf; now left).
    apply filter_In in Hin as [Hin Hchk].
    specialize (Hsel r Hin). simpl in Hsel. congruence.
  - now apply filter_ext_in.
Qed.

Lemma filtered_data_labels (chk : string -> bool) (rows : list SalesRecord) :
  NoDup (map fst (filtered_data chk (RangeIndex rows))).
Proof.
  rewrite filtered_data_checkbox.
  apply filter_keeps_distinct, RangeIndex_labels.
Qed.

(** C1.  For every table and every subset S of its categories, ticking
    exactly the boxes of S selects S, and the filter returns exactly the
    rows whose category is in S, in their original order; with nothing
    ticked the result has no rows. *)
Theorem category_filter_exact (rows : list SalesRecord) (S : list string) :
  incl S (map Category rows) ->
  let sales_data := RangeIndex rows in
  let chk := fun c => isin c S in
  (forall c, In c (selected_categories chk sales_data) <-> In c S) /\
  filtered_data chk sales_data
    = filter (fun r => isin (Category (snd r)) S) sales_data /\
  subsequence (filtered_data chk sales_data) sales_data /\
  (forall r, In r (filtered_data chk sales_data)
             <-> In r sales_data /\ In (Category (snd r)) S) /\
  (S = [] -> filtered_data chk sales_data = []).
Proof.
  intros Hincl sales_data chk.
  assert (Hf : filtered_data chk sales_data
               = filter (fun r => isin (Category (snd r)) S) sales_data)
    by apply filtered_data_checkbox.
  repeat split.
  - unfold selected_categories.
    destruct sales_data as [|r0 t] eqn:Hsd; cbn [empty negb].
    + intros [].
    + intros Hin. apply filter_In in Hin as [_ Hin]. now apply isin_In.
  - intros Hc. unfold selected_categories.
    assert (Hcat : In c (map (fun r => Category (snd r)) sales_data)).
    { unfold sales_data. rewrite <- (map_map snd Category), RangeIndex_rows.
      now apply Hincl. }
    destruct sales_data as [|r0 t] eqn:Hsd; [contradiction|].
    cbn [empty negb]. apply filter_In. split.
    + now apply unique_In.
    + now apply isin_In.
  - exact Hf.
  - rewrite Hf. apply subsequence_filter.
  - rewrite Hf in H. now apply filter_In in H.
  - rewrite Hf in H. apply filter_In in H as [_ H]. now apply isin_In.
  - intros [Hin Hc]. rewrite Hf. apply filter_In. split; [assumption|].
    now apply isin_In.
  - intros ->. rewrite Hf. clear. induction sales_data; simpl; auto.
Qed.

Lemma category_filter_exact_witness :
  incl ["Shoes"] (map Category scenario_rows) /\
  filtered_data (fun c => isin c ["Shoes"]) (RangeIndex scenario_rows)
  = [(2, mkRecord (mkTimestamp 2023 1 1) "Shoes" 5%Z)].
Proof.
  assert (H : incl ["Shoes"] (map Category scenario_rows)).
  { intros c [<- | []]. simpl. auto. }
  split; [exact H|].
  destruct (category_filter_exact scenario_rows ["Shoes"] H) as (_ & Hf & _).
  rewrite Hf. reflexivity.
Defined.

(** ** Sums in [int64] *)

Lemma wrap64_fits (z : Z) : fits_int64 z -> wrap64 z = z.
Proof.
  unfold fits_int64, int64_min, int64_max, wrap64. intros H.
  rewrite Z.mod_small by lia. lia.
Qed.

Lemma wrap64_add_l (a x : Z) : wrap64 (wrap64 a + x) = wrap64 (a + x).
Proof.
  unfold wrap64. f_equal.
  replace ((a + 2 ^ 63) mod 2 ^ 64 - 2 ^ 63 + x + 2 ^ 63)%Z
    with ((a + 2 ^ 63) mod 2 ^ 64 + x)%Z by lia.
  rewrite Zplus_mod_idemp_l. f_equal. lia.
Qed.

Lemma fold_wrap64 (xs : list Z) :
  forall a,
    fold_left (fun acc x => wrap64 (acc + x)) xs (wrap64 a)
    = wrap64 (a + arithmetic_sum xs).
Proof.
  induction xs as [|x xs IH]; intros a; simpl.
  - now rewrite Z.add_0_r.
  - rewrite wrap64_add_l, IH. f_equal. lia.
Qed.

(** [Series.sum()] is the integer sum brought back into 64 bits. *)
Lemma Series_sum_wrap (xs : list Z) :
  Series_sum xs = wrap64 (arithmetic_sum xs).
Proof.
  unfold Series_sum. change 0%Z with (wrap64 0) at 1.
  now rewrite fold_wrap64.
Qed.

Lemma total_sales_wrap (fd : SalesTable) :
  total_sales fd = wrap64 (arithmetic_sum (sales_of fd)).
Proof. apply Series_sum_wrap. Qed.

(** C4, as stated, fails: two sales of 2^62 units add up to 2^63, which the
    64-bit sum of the column shows as -2^63. *)
Lemma total_sales_overflow :
  ~ total_is_arithmetic_sum (filtered_data all_checked (RangeIndex overflow_rows)).
Proof. unfold total_is_arithmetic_sum. vm_compute. discriminate. Qed.

(** C4, amended.  For every filtered table whose sales add up to a number
    that fits in 64 bits, the Total Sales metric is the sum of the Sales
    field over its rows; on the empty filtered table it is zero, shown as
    "0 units". *)
Theorem total_sales_sum (chk : string -> bool) (rows : list SalesRecord) :
  let fd := filtered_data chk (RangeIndex rows) in
  fits_int64 (arithmetic_sum (sales_of fd)) ->
  total_is_arithmetic_sum fd /\
  (fd = [] -> total_sales fd = 0%Z /\ total_sales_metric fd = "0 units").
Proof.
  intros fd Hfit. split.
  - unfold total_is_arithmetic_sum. rewrite total_sales_wrap.
    now apply wrap64_fits.
  - intros ->. split; reflexivity.
Qed.

Lemma total_sales_sum_witness :
  fits_int64
    (arithmetic_sum (sales_of (filtered_data all_checked (RangeIndex scenario_rows)))) /\
  total_sales (filtered_data all_checked (RangeIndex scenario_rows)) = 35%Z.
Proof.
  assert (H : fits_int64
    (arithmetic_sum (sales_of (filtered_data all_checked (RangeIndex scenario_rows))))).
  { vm_compute. split; discriminate. }
  split; [exact H|].
  destruct (total_sales_sum all_checked scenario_rows H) as [Hsum _].
  rewrite Hsum. reflexivity.
Defined.

(** ** [idxmax] and [.loc] *)

Section Idxmax.

Context {L : Type}.

(** The scan keeps the first entry that no later entry beats: everything
    before it is strictly smaller, everything after it at most equal. *)
Lemma scan_first_max (rest : list (L * Z)) :
  forall (first : L * Z) (pre0 mid : list (L * Z)),
    Forall (fun x => (snd x < snd first)%Z) pre0 ->
    Forall (fun x => (snd x <= snd first)%Z) mid ->
    exists pre post,
      (pre0 ++ first :: mid ++ rest)%list
      = (pre ++ fold_left keep_max rest first :: post)%list /\
      Forall (fun x => (snd x < snd (fold_left keep_max rest first))%Z) pre /\
      Forall (fun x => (snd x <= snd (fold_left keep_max rest first))%Z) post.
Proof.
  induction rest as [|x rest IH]; intros first pre0 mid Hpre Hmid; simpl.
  - exists pre0, mid. rewrite app_nil_r. auto.
  - unfold keep_max at 2 4 6.
    destruct (Z.ltb_spec (snd first) (snd x)) as [Hlt|Hge].
    + destruct (IH x (pre0 ++ first :: mid)%list [])
        as (pre & post & Heq & H1 & H2).
      * apply Forall_app. split.
        -- eapply Forall_impl; [|exact Hpre]. simpl. intros; lia.
        -- constructor; [exact Hlt|].
           eapply Forall_impl; [|exact Hmid]. simpl. intros; lia.
      * constructor.
      * exists pre, post. split; [|auto].
        rewrite <- Heq. simpl. now rewrite <- app_assoc.
    + destruct (IH first pre0 (mid ++ [x])%list)
        as (pre & post & Heq & H1 & H2).
      * exact Hpre.
      * apply Forall_app. split; [exact Hmid|].
        constructor; [exact Hge | constructor].
      * exists pre, post. split; [|auto].
        rewrite <- Heq. now rewrite <- app_assoc.
Qed.

Lemma idxmax_first_max (s : list (L * Z)) :
  s <> [] ->
  exists pre l v post,
    idxmax s = Some l /\
    s = (pre ++ (l, v) :: post)%list /\
    Forall (fun x => (snd x < v)%Z) pre /\
    Forall (fun x => (snd x <= v)%Z) post.
Proof.
  destruct s as [|first rest]; [congruence|]. intros _.
  destruct (scan_first_max rest first [] []) as (pre & post & Heq & H1 & H2);
    try constructor.
  simpl in Heq. unfold idxmax.
  destruct (fold_left keep_max rest first) as [l v] eqn:Hbest.
  exists pre, l, v, post. simpl in *. auto.
Qed.

End Idxmax.

Lemma loc_unique (pre post : SalesTable) (l : nat) (r : SalesRecord) :
  NoDup (map fst (pre ++ (l, r) :: post)%list) ->
  loc l (pre ++ (l, r) :: post)%list = [r].
Proof.
  intros Hnd. unfold loc.
  assert (Hother : forall t : SalesTable,
            ~ In l (map fst t) ->
            filter (fun x => Nat.eqb (fst x) l) t = []).
  { induction t as [|x t IH]; simpl; intros Hn; [reflexivity|].
    destruct (Nat.eqb_spec (fst x) l) as [Heq|Hne]; [tauto|].
    apply IH. tauto. }
  rewrite map_app in Hnd. simpl in Hnd.
  pose proof (NoDup_remove_2 _ _ _ Hnd) as Hnotin.
  rewrite filter_app. simpl. rewrite Nat.eqb_refl.
  rewrite !Hother; [reflexivity | |];
    intros Hin; apply Hnotin, in_or_app; auto.
Qed.

(** On a non-empty table with distinct labels the metric is the day of the
    first row with the largest sale. *)
Lemma highest_sales_day_spec (fd : SalesTable) :
  NoDup (map fst fd) -> fd <> [] ->
  exists pre r post,
    map snd fd = (pre ++ r :: post)%list /\
    Forall (fun x => (Sales x < Sales r)%Z) pre /\
    Forall (fun x => (Sales x <= Sales r)%Z) post /\
    highest_sales_day fd = Done (strftime (Date r)).
Proof.
  intros Hnd Hne.
  destruct (idxmax_first_max (map (fun r => (fst r, Sales (snd r))) fd))
    as (pre & l & v & post & Hidx & Hsplit & Hpre & Hpost).
  { destruct fd; [congruence | discriminate]. }
  apply map_eq_app in Hsplit as (fpre & frest & -> & Hfpre & Hfrest).
  apply map_eq_cons in Hfrest as ([l' r] & fpost & -> & Hhd & Hfpost).
  simpl in Hhd. injection Hhd as -> <-.
  exists (map snd fpre), r, (map snd fpost). repeat split.
  - now rewrite map_app.
  - subst pre. rewrite Forall_map in Hpre |- *.
    eapply Forall_impl; [|exact Hpre]. now simpl.
  - subst post. rewrite Forall_map in Hpost |- *.
    eapply Forall_impl; [|exact Hpost]. now simpl.
  - unfold highest_sales_day. rewrite Hidx, (loc_unique _ _ _ _ Hnd).
    destruct (fpre ++ (l, r) :: fpost)%list; [congruence | reflexivity].
Qed.

(** *** What [strftime] prints *)

Lemma count_from_In (len : nat) :
  forall start n,
    (start <= n < start + N.of_nat len)%N -> In n (count_from start len).
Proof.
  induction len as [|len IH]; intros start n Hn; [lia|].
  cbn [count_from]. destruct (N.eq_dec start n) as [->|Hne]; [now left|].
  right. apply IH. lia.
Qed.

Lemma year_reads (y : nat) :
  1000 <= y < 10 * 1000 -> reads4 (str_of_nat y) (N.of_nat y) = true.
Proof.
  intros Hy.
  assert (Hall : forallb (fun n => reads4 (str_of_N n) n)
                         (count_from 1000 (9 * 1000)) = true)
    by (vm_compute; reflexivity).
  rewrite forallb_forall in Hall. apply Hall, count_from_In. lia.
Qed.

Lemma zero_padded_reads (n : nat) :
  n < 100 -> reads2 (zero_padded n) n = true.
Proof.
  intros Hn.
  assert (Hall : forallb (fun k => reads2 (zero_padded k) k) (seq 0 100)
                 = true) by (vm_compute; reflexivity).
  rewrite forallb_forall in Hall. apply Hall, in_seq. lia.
Qed.

(** A calendar date with a four-digit year is printed as YYYY-MM-DD, and
    the text reads as that date. *)
Lemma parse_iso_strftime (t : Timestamp) :
  calendar_date t = true ->
  is_iso_date (strftime t) = true /\ parse_iso (strftime t) = Some t.
Proof.
  destruct t as [y m d]. unfold calendar_date. cbn [year month day].
  rewrite !andb_true_iff, !Nat.leb_le, Nat.ltb_lt.
  intros [[[[[Hy1 Hy2] Hm1] Hm2] Hd1] Hd2].
  pose proof (year_reads y (conj Hy1 Hy2)) as Hy.
  assert (Hm : reads2 (zero_padded m) m = true)
    by (apply zero_padded_reads; lia).
  assert (Hd : reads2 (zero_padded d) d = true)
    by (apply zero_padded_reads; lia).
  unfold strftime. cbn [year month day].
  destruct (str_of_nat y) as [|c1 [|c2 [|c3 [|c4 [|? ?]]]]];
    try discriminate Hy.
  destruct (zero_padded m) as [|m1 [|m2 [|? ?]]]; try discriminate Hm.
  destruct (zero_padded d) as [|d1 [|d2 [|? ?]]]; try discriminate Hd.
  unfold reads4 in Hy. unfold reads2 in Hm, Hd.
  repeat rewrite andb_true_iff in Hy. rewrite N.eqb_eq in Hy.
  repeat rewrite andb_true_iff in Hm. rewrite Nat.eqb_eq in Hm.
  repeat rewrite andb_true_iff in Hd. rewrite Nat.eqb_eq in Hd.
  destruct Hy as [[[[Hc1 Hc2] Hc3] Hc4] Hy].
  assert (Hy' : 1000 * digit_of c1 + 100 * digit_of c2
                + 10 * digit_of c3 + digit_of c4 = y) by lia.
  destruct Hm as [[Hm1' Hm2'] Hm]. destruct Hd as [[Hd1' Hd2'] Hd].
  cbn [append].
  assert (Hiso : is_iso_date
            (String c1 (String c2 (String c3 (String c4 (String "-"
              (String m1 (String m2 (String "-" (String d1 (String d2
                EmptyString)))))))))) = true).
  { unfold is_iso_date.
    rewrite Hc1, Hc2, Hc3, Hc4, Hm1', Hm2', Hd1', Hd2'. reflexivity. }
  split; [exact Hiso|].
  unfold parse_iso. rewrite Hiso, Hy', Hm, Hd.
  rewrite (proj2 (Nat.leb_le 1 m) Hm1), (proj2 (Nat.leb_le m 12) Hm2),
    (proj2 (Nat.leb_le 1 d) Hd1), (proj2 (Nat.leb_le d 31) Hd2).
  reflexivity.
Qed.

(** C5, as stated, fails: a sale dated 6 May 999 is shown as 999-05-06,
    which is not of the form YYYY-MM-DD. *)
Lemma year_999_not_iso :
  ~ shows_first_max_day (filtered_data all_checked (RangeIndex early_rows)).
Proof.
  intros (pre & r & post & s & _ & _ & _ & Hs & Hiso & _).
  vm_compute in Hs. injection Hs as <-.
  vm_compute in Hiso. discriminate Hiso.
Qed.

Example early_day_shown :
  highest_sales_day (filtered_data all_checked (RangeIndex early_rows))
  = Done "999-05-06".
Proof. reflexivity. Qed.

(** C5, amended.  For every filtered table whose dates are calendar dates
    with a four-digit year: when the table is not empty the Highest Sales
    Day metric is the date, written YYYY-MM-DD, of the first row in table
    order whose Sales value is the largest; on the empty filtered table it
    is "N/A". *)
Theorem highest_sales_day_first_max (chk : string -> bool)
    (rows : list SalesRecord) :
  let fd := filtered_data chk (RangeIndex rows) in
  Forall (fun x => calendar_date (Date (snd x)) = true) fd ->
  (fd <> [] -> shows_first_max_day fd) /\
  (fd = [] -> highest_sales_day fd = Done "N/A").
Proof.
  intros fd Hdates. split.
  - intros Hne.
    destruct (highest_sales_day_spec fd (filtered_data_labels chk rows) Hne)
      as (pre & r & post & Hsplit & Hpre & Hpost & Hday).
    assert (Hr : calendar_date (Date r) = true).
    { assert (Hin : In r (map snd fd))
        by (rewrite Hsplit; apply in_or_app; right; now left).
      apply in_map_iff in Hin as (x & <- & Hx).
      rewrite Forall_forall in Hdates. now apply Hdates. }
    destruct (parse_iso_strftime _ Hr) as [Hiso Hread].
    exists pre, r, post, (strftime (Date r)). repeat split; assumption.
  - intros ->. reflexivity.
Qed.

Lemma highest_sales_day_first_max_witness :
  Forall (fun x => calendar_date (Date (snd x)) = true)
         (filtered_data all_checked (RangeIndex scenario_rows)) /\
  shows_first_max_day (filtered_data all_checked (RangeIndex scenario_rows)).
Proof.
  assert (H : Forall (fun x => calendar_date (Date (snd x)) = true)
                (filtered_data all_checked (RangeIndex scenario_rows)))
    by (vm_compute; repeat constructor).
  split; [exact H|].
  apply (highest_sales_day_first_max all_checked scenario_rows H).
  discriminate.
Defined.

Example scenario_day_shown :
  highest_sales_day (filtered_data all_checked (RangeIndex scenario_rows))
  = Done "2023-01-02".
Proof. reflexivity. Qed.

(** ** Top category *)

Lemma insert_sorted_In (k x : string) (l : list string) :
  In x (insert_sorted k l) <-> x = k \/ In x l.
Proof.
  induction l as [|y l IH]; simpl.
  - intuition.
  - destruct (String.leb k y); simpl; [intuition|].
    rewrite IH. intuition.
Qed.

Lemma sort_keys_In (x : string) (l : list string) :
  In x (sort_keys l) <-> In x l.
Proof.
  induction l as [|y l IH]; simpl; [tauto|].
  rewrite insert_sorted_In, IH. intuition.
Qed.

Lemma group_sum_wrap (fd : SalesTable) (c : string) :
  group_sum fd c = wrap64 (category_total fd c).
Proof. apply Series_sum_wrap. Qed.

Lemma groupby_sum_In (fd : SalesTable) (k : string) (v : Z) :
  In (k, v) (groupby_sum fd) <-> In k (categories_of fd) /\ v = group_sum fd k.
Proof.
  unfold groupby_sum. rewrite in_map_iff. split.
  - intros (c & Heq & Hin). injection Heq as -> <-.
    apply (proj1 (sort_keys_In _ _)) in Hin.
    apply (proj1 (unique_In _ _)) in Hin.
    split; [exact Hin | reflexivity].
  - intros [Hin ->]. exists k. split; [reflexivity|].
    apply (proj2 (sort_keys_In _ _)). now apply (proj2 (unique_In _ _)).
Qed.

(** On a non-empty table the metric names a category of the table whose
    sum, as pandas computes it, no other category's sum exceeds. *)
Lemma top_category_spec (fd : SalesTable) :
  fd <> [] ->
  exists k, top_category fd = Done k /\
            In k (categories_of fd) /\
            forall c, In c (categories_of fd) ->
                      (group_sum fd c <= group_sum fd k)%Z.
Proof.
  intros Hne.
  assert (Hg : groupby_sum fd <> []).
  { destruct fd as [|r fd']; [congruence|].
    intros Hnil.
    assert (Hin : In (Category (snd r), group_sum (r :: fd') (Category (snd r)))
                     (groupby_sum (r :: fd'))).
    { apply groupby_sum_In. split; [now left | reflexivity]. }
    rewrite Hnil in Hin. contradiction. }
  destruct (idxmax_first_max (groupby_sum fd) Hg)
    as (pre & k & v & post & Hidx & Hsplit & Hpre & Hpost).
  assert (Hk : In (k, v) (groupby_sum fd)).
  { rewrite Hsplit. apply in_or_app. right. now left. }
  apply groupby_sum_In in Hk as [Hkin ->].
  exists k. repeat split.
  - unfold top_category. rewrite Hidx.
    destruct fd; [congruence | reflexivity].
  - exact Hkin.
  - intros c Hc.
    assert (Hin : In (c, group_sum fd c) (groupby_sum fd))
      by (apply groupby_sum_In; auto).
    rewrite Hsplit in Hin. apply in_app_or in Hin as [Hin | [Heq | Hin]].
    + rewrite Forall_forall in Hpre. specialize (Hpre _ Hin). simpl in Hpre. lia.
    + injection Heq as _ Heq. lia.
    + rewrite Forall_forall in Hpost. specialize (Hpost _ Hin). now simpl in Hpost.
Qed.

(** C6, as stated, fails: Dresses sold 2^63 units and Shoes one, yet the
    metric names Shoes, because the 64-bit sum of Dresses is negative. *)
Lemma top_category_overflow :
  ~ top_is_maximal (filtered_data all_checked (RangeIndex overflow_rows)).
Proof.
  intros (k & Hk & _ & Hmax).
  assert (Htop : top_category (filtered_data all_checked (RangeIndex overflow_rows))
                 = Done "Shoes") by (vm_compute; reflexivity).
  rewrite Htop in Hk. injection Hk as <-.
  specialize (Hmax "Dresses"). vm_compute in Hmax.
  apply Hmax; [auto | reflexivity].
Qed.

(** C6, amended.  For every non-empty filtered table in which the sales of
    each category add up to a number that fits in 64 bits, the Top Selling
    Category metric is a category of the table whose summed Sales no other
    category exceeds; on the empty filtered table it is "N/A". *)
Theorem top_category_maximal (chk : string -> bool) (rows : list SalesRecord) :
  let fd := filtered_data chk (RangeIndex rows) in
  (forall c, In c (categories_of fd) -> fits_int64 (category_total fd c)) ->
  (fd <> [] -> top_is_maximal fd) /\
  (fd = [] -> top_category fd = Done "N/A").
Proof.
  intros fd Hfit. split.
  - intros Hne. destruct (top_category_spec fd Hne) as (k & Hk & Hin & Hmax).
    exists k. repeat split; auto.
    intros c Hc. specialize (Hmax c Hc).
    rewrite !group_sum_wrap in Hmax.
    now rewrite !wrap64_fits in Hmax by auto.
  - intros ->. reflexivity.
Qed.

Lemma top_category_maximal_witness :
  top_category (filtered_data all_checked (RangeIndex scenario_rows))
  = Done "Dresses" /\
  top_is_maximal (filtered_data all_checked (RangeIndex scenario_rows)).
Proof.
  split; [reflexivity|].
  apply (top_category_maximal all_checked scenario_rows).
  - intros c Hc. vm_compute in Hc.
    destruct Hc as [<- | [<- | [<- | []]]]; vm_compute; split; discriminate.
  - discriminate.
Defined.

(** ** Forecast and the rest of the page *)

Section PageFacts.

Variable fit_raises : list (Timestamp * Z) -> bool.
Variable predict_raises : list (Timestamp * Z) -> nat -> bool.

Lemma page_empty (w : widgets) (sales_data : SalesTable) :
  filtered_data (checkbox w) sales_data = [] ->
  page fit_raises predict_raises w sales_data
  = ([ sidebar_subheader "📌 Select Categories to Display:";
       st_title "📊 Fashion Demand Forecasting Dashboard";
       st_metric "Total Sales" "0 units";
       st_metric "Top Selling Category" "N/A";
       st_metric "Highest Sales Day" "N/A";
       st_plotly_chart (fig_trend []);
       st_subheader "🔮 Future Sales Prediction";
       no_data;
       st_subheader "📋 Sales Data";
       st_dataframe [] ], Done tt).
Proof.
  intros Hfd. unfold page. rewrite Hfd. reflexivity.
Qed.

(** With rows to show, the page runs up to the forecast and fits the
    model; the run ends where the model raises. *)
Lemma page_nonempty (w : widgets) (rows : list SalesRecord) :
  let fd := filtered_data (checkbox w) (RangeIndex rows) in
  fd <> [] ->
  exists top day,
    let history := map (fun r => (Date (snd r), Sales (snd r))) fd in
    let periods := forecast_period w in
    page fit_raises predict_raises w (RangeIndex rows)
    = (([ sidebar_subheader "📌 Select Categories to Display:";
          st_title "📊 Fashion Demand Forecasting Dashboard";
          st_metric "Total Sales" (total_sales_metric fd);
          st_metric "Top Selling Category" top;
          st_metric "Highest Sales Day" day;
          st_plotly_chart (fig_trend fd);
          st_subheader "🔮 Future Sales Prediction";
          prophet_fit history ]
        ++ (if fit_raises history then []
            else prophet_predict periods ::
                 (if predict_raises history periods then []
                  else [ st_plotly_chart (fig_forecast history periods);
                         st_subheader "📋 Sales Data";
                         st_dataframe fd ])))%list,
       if fit_raises history then Raised ProphetError
       else if predict_raises history periods then Raised ProphetError
            else Done tt).
Proof.
  intros fd Hne.
  destruct (top_category_spec fd Hne) as (top & Htop & _).
  destruct (highest_sales_day_spec fd (filtered_data_labels _ rows) Hne)
    as (_ & r & _ & _ & _ & _ & Hday).
  exists top, (strftime (Date r)).
  unfold page. fold fd. rewrite Htop, Hday. unfold forecast.
  destruct fd as [|r0 fd'] eqn:Hfd; [congruence|].
  cbn [empty].
  destruct (fit_raises _); [reflexivity|].
  destruct (predict_raises _ _); reflexivity.
Qed.

End PageFacts.


(** ** Input acquisition *)

(** Without the database box and without a file the run stops on the
    prompt. *)
Lemma no_source_prompt (to_datetime : Series -> option Series) (w : widgets) :
  use_db w = false -> uploaded_file w = None ->
  ingest to_datetime w
  = ([sidebar_warning "Please upload a CSV file or connect to a database."],
     Stopped).
Proof.
  intros Hdb Hfile. unfold ingest, load_sales_data.
  rewrite Hdb, Hfile. reflexivity.
Qed.

(** With the database box ticked and Connect not pressed, [sales_data] is
    still [None] at line 83, whatever the other widgets hold: nothing is
    shown, nothing stops the run, and the column access raises. *)
Lemma db_ticked_no_connect (to_datetime : Series -> option Series) (w : widgets) :
  use_db w = true -> connect w = false ->
  load_sales_data w = ([], Done None) /\
  ingest to_datetime w = ([], Raised AttributeError).
Proof.
  intros Hdb Hconn. unfold ingest, load_sales_data.
  rewrite Hdb, Hconn. split; reflexivity.
Qed.

(** C9 (code).  The database box ticked, Connect not pressed, no file: the
    run does not stop on the prompt; it goes on to line 83 and raises. *)
Theorem db_ticked_raises :
  ingest iso_to_datetime (db_ticked None) = ([], Raised AttributeError) /\
  ~ In (sidebar_warning "Please upload a CSV file or connect to a database.")
       (trace (ingest iso_to_datetime (db_ticked None))).
Proof. split; [reflexivity | intros []]. Qed.

(** ** Column names *)

Ltac each_ascii c :=
  destruct c as [[] [] [] [] [] [] [] []]; reflexivity.

Lemma isspace_lower_char (c : ascii) :
  Py.isspace (Py.lower_char c) = Py.isspace c.
Proof. each_ascii c. Qed.

Lemma lower_char_idem (c : ascii) :
  Py.lower_char (Py.lower_char c) = Py.lower_char c.
Proof. each_ascii c. Qed.

Lemma lower_idem (s : string) : Py.lower (Py.lower s) = Py.lower s.
Proof.
  induction s as [|c s IH]; simpl; [reflexivity|].
  now rewrite lower_char_idem, IH.
Qed.

Lemma lower_lstrip (s : string) :
  Py.lower (Py.lstrip s) = Py.lstrip (Py.lower s).
Proof.
  induction s as [|c s IH]; simpl; [reflexivity|].
  rewrite isspace_lower_char. destruct (Py.isspace c); [exact IH | reflexivity].
Qed.

Lemma lower_rstrip (s : string) :
  Py.lower (Py.rstrip s) = Py.rstrip (Py.lower s).
Proof.
  induction s as [|c s IH]; simpl; [reflexivity|].
  rewrite <- IH, isspace_lower_char.
  destruct (Py.rstrip s); simpl; [|reflexivity].
  destruct (Py.isspace c); reflexivity.
Qed.

Lemma lstrip_clean (s : string) : starts_clean (Py.lstrip s) = true.
Proof.
  induction s as [|c s IH]; simpl; [reflexivity|].
  destruct (Py.isspace c) eqn:Hc; [exact IH|]. simpl. now rewrite Hc.
Qed.

Lemma clean_lstrip (s : string) : starts_clean s = true -> Py.lstrip s = s.
Proof.
  destruct s as [|c s]; simpl; [reflexivity|].
  destruct (Py.isspace c); [discriminate | reflexivity].
Qed.

Lemma rstrip_clean (s : string) :
  starts_clean s = true -> starts_clean (Py.rstrip s) = true.
Proof.
  destruct s as [|c s]; simpl; [reflexivity|]. intros Hc.
  destruct (Py.rstrip s); simpl; [|exact Hc].
  destruct (Py.isspace c) eqn:Hsp; [reflexivity|]. simpl. now rewrite Hsp.
Qed.

Lemma rstrip_idem (s : string) : Py.rstrip (Py.rstrip s) = Py.rstrip s.
Proof.
  induction s as [|c s IH]; [reflexivity|].
  cbn [Py.rstrip]. destruct (Py.rstrip s) as [|c' r] eqn:Hr.
  - destruct (Py.isspace c) eqn:Hc; [reflexivity|].
    cbn [Py.rstrip]. now rewrite Hc.
  - change (Py.rstrip (String c (String c' r)))
      with (match Py.rstrip (String c' r) with
            | EmptyString =>
                if Py.isspace c then EmptyString else String c EmptyString
            | r' => String c r'
            end).
    now rewrite IH.
Qed.

Lemma strip_idem (s : string) : Py.strip (Py.strip s) = Py.strip s.
Proof.
  unfold Py.strip.
  rewrite (clean_lstrip (Py.rstrip (Py.lstrip s)))
    by apply rstrip_clean, lstrip_clean.
  apply rstrip_idem.
Qed.

Lemma strip_lower_idem (s : string) :
  strip_lower (strip_lower s) = strip_lower s.
Proof.
  unfold strip_lower.
  assert (H : forall t, Py.strip (Py.lower t) = Py.lower (Py.strip t)).
  { intros t. unfold Py.strip. now rewrite <- lower_lstrip, <- lower_rstrip. }
  now rewrite H, lower_idem, strip_idem.
Qed.

Lemma lower_head (s : string) (c : ascii) (rest : string) :
  Py.lower s = String c rest -> Py.lower_char c = c.
Proof.
  destruct s as [|c0 s]; simpl; [discriminate|].
  intros H. injection H as <- _. apply lower_char_idem.
Qed.

(** A trimmed, lower-cased name is none of the canonical names. *)
Lemma strip_lower_not_canonical (s : string) :
  strip_lower s <> "Date" /\ strip_lower s <> "Sales"
  /\ strip_lower s <> "Category".
Proof.
  unfold strip_lower.
  repeat split; intros H; apply lower_head in H; discriminate.
Qed.

(** ** Frames *)

Lemma columns_standardize (df : DataFrame) :
  columns (standardize_columns df) = names_of df.
Proof.
  unfold names_of, columns, standardize_columns. rewrite !map_map.
  now apply map_ext.
Qed.

Lemma columns_rename (old new : string) (df : DataFrame) :
  columns (rename old new df) = map (relabel old new) (columns df).
Proof.
  unfold columns, rename. rewrite !map_map. now apply map_ext.
Qed.

Lemma columns_setitem (name : string) (data : Series) (df : DataFrame) :
  columns (setitem name data df) = columns df.
Proof.
  unfold columns, setitem. rewrite map_map. apply map_ext.
  intros c. now destruct (String.eqb (fst c) name).
Qed.

Lemma data_standardize (df : DataFrame) :
  map snd (standardize_columns df) = map snd df.
Proof. unfold standardize_columns. rewrite map_map. now apply map_ext. Qed.

Lemma data_rename (old new : string) (df : DataFrame) :
  map snd (rename old new df) = map snd df.
Proof. unfold rename. rewrite map_map. now apply map_ext. Qed.

Lemma names_lowercase (df : DataFrame) (n : string) :
  In n (names_of df) ->
  strip_lower n = n /\ n <> "Date" /\ n <> "Sales" /\ n <> "Category".
Proof.
  unfold names_of. intros Hin. apply in_map_iff in Hin as (x & <- & _).
  split; [apply strip_lower_idem | apply strip_lower_not_canonical].
Qed.

(** A filter that keeps one element keeps it from one position only. *)
Lemma filter_single_position {A : Type} (p : A -> bool) (l : list A) (x : A) :
  filter p l = [x] ->
  forall i j a b,
    nth_error l i = Some a -> p a = true ->
    nth_error l j = Some b -> p b = true -> i = j.
Proof.
  revert x. induction l as [|y l IH]; intros x Hf i j a b Hi Ha Hj Hb.
  - destruct i; discriminate.
  - simpl in Hf. destruct (p y) eqn:Hy.
    + injection Hf as _ Hnil.
      assert (Hnone : forall k c, nth_error l k = Some c -> p c = true -> False).
      { intros k c Hk Hc.
        assert (Hin : In c (filter p l))
          by (apply filter_In; split; [eapply nth_error_In; eauto | exact Hc]).
        rewrite Hnil in Hin. contradiction. }
      destruct i as [|i], j as [|j]; simpl in *; try reflexivity.
      * exfalso. eapply Hnone; eauto.
      * exfalso. eapply Hnone; eauto.
      * exfalso. eapply Hnone; eauto.
    + destruct i as [|i], j as [|j]; simpl in *.
      * reflexivity.
      * congruence.
      * congruence.
      * f_equal. eapply IH; eauto.
Qed.

Lemma getitem_single_position (name : string) (df : DataFrame) (data : Series) :
  getitem name df = [data] ->
  forall i j, nth_error (columns df) i = Some name ->
              nth_error (columns df) j = Some name -> i = j.
Proof.
  unfold getitem, columns. intros Hg i j Hi Hj.
  destruct (filter (fun c => String.eqb (fst c) name) df) as [|x [|y l]] eqn:Hf;
    try discriminate.
  rewrite nth_error_map in Hi, Hj.
  destruct (nth_error df i) as [a|] eqn:Hai; [|discriminate].
  destruct (nth_error df j) as [b|] eqn:Hbj; [|discriminate].
  simpl in Hi, Hj. injection Hi as Hi. injection Hj as Hj.
  eapply (filter_single_position _ _ _ Hf); eauto; simpl;
    now apply String.eqb_eq.
Qed.

(** [df[name] = data] touches the columns labelled [name] only. *)
Lemma setitem_other (name : string) (data : Series) (df : DataFrame) (j : nat) :
  nth_error (columns df) j <> Some name ->
  nth_error (map snd (setitem name data df)) j = nth_error (map snd df) j.
Proof.
  unfold columns, setitem. rewrite !nth_error_map.
  destruct (nth_error df j) as [[n d]|]; simpl; [|reflexivity].
  intros Hne. destruct (String.eqb_spec n name) as [->|_]; [congruence|reflexivity].
Qed.

Lemma setitem_length (name : string) (data : Series) (df : DataFrame) :
  List.length (setitem name data df) = List.length df.
Proof. apply length_map. Qed.

(** Relabelling to a name no column carries moves the selection along. *)
Lemma getitem_rename_fresh (old new : string) (df : DataFrame) :
  ~ In new (columns df) ->
  getitem new (rename old new df) = getitem old df.
Proof.
  unfold getitem, rename, columns.
  induction df as [|[n d] df IH]; simpl; intros Hfresh; [reflexivity|].
  destruct (String.eqb_spec n old) as [->|Hne].
  - rewrite String.eqb_refl. simpl. f_equal. apply IH. tauto.
  - destruct (String.eqb_spec n new) as [->|_]; [tauto|]. apply IH. tauto.
Qed.

(** ** The normalizer, step by step *)

Section NormalizerFacts.

Variable to_datetime : Series -> option Series.

Lemma convert_date_ok (df : DataFrame) (data data' : Series) :
  getitem "Date" df = [data] -> to_datetime data = Some data' ->
  convert_date to_datetime df = ([], Done (setitem "Date" data' df)).
Proof. intros Hg Ht. unfold convert_date. now rewrite Hg, Ht. Qed.

Lemma convert_date_Done (df df' : DataFrame) (tr : list event) :
  convert_date to_datetime df = (tr, Done df') ->
  tr = [] /\
  exists data data',
    getitem "Date" df = [data] /\ to_datetime data = Some data' /\
    df' = setitem "Date" data' df.
Proof.
  unfold convert_date.
  destruct (getitem "Date" df) as [|data [|other l]]; try discriminate.
  destruct (to_datetime data) as [data'|] eqn:Ht; try discriminate.
  intros H. injection H as <- <-. split; [reflexivity|].
  now exists data, data'.
Qed.

(** The loop over the three lists, spelled out. *)
Lemma rename_loop_column_map (df : DataFrame) :
  rename_loop (column_map df) df =
  match matching "date" df with
  | [] => stop_missing "date" df
  | d1 :: _ =>
      match matching "sales" df with
      | [] => stop_missing "sales" (rename d1 "Date" df)
      | s1 :: _ =>
          match matching "category" df with
          | [] => stop_missing "category"
                    (rename s1 "Sales" (rename d1 "Date" df))
          | c1 :: _ =>
              ret (rename c1 "Category"
                     (rename s1 "Sales" (rename d1 "Date" df)))
          end
      end
  end.
Proof.
  unfold column_map. cbn [rename_loop].
  destruct (matching "date" df); [reflexivity|].
  destruct (matching "sales" df); [reflexivity|].
  destruct (matching "category" df); reflexivity.
Qed.

Lemma normalize_no_date (df : DataFrame) :
  matching "date" (standardize_columns df) = [] ->
  normalize to_datetime (Some df) = stop_missing "date" (standardize_columns df).
Proof. intros Hm. unfold normalize. now rewrite Hm. Qed.

Lemma Date_fresh (df : DataFrame) : ~ In "Date" (columns (standardize_columns df)).
Proof.
  rewrite columns_standardize. intros Hin.
  apply names_lowercase in Hin. tauto.
Qed.

(** Once the date column is found and converted, the run is the loop of
    the second pass followed by the second conversion. *)
Lemma normalize_first_pass (df : DataFrame) (col0 : string)
    (cols : list string) (data data1 : Series) :
  matching "date" (standardize_columns df) = col0 :: cols ->
  getitem col0 (standardize_columns df) = [data] ->
  to_datetime data = Some data1 ->
  normalize to_datetime (Some df)
  = (df3 <- rename_loop (column_map (second_pass_frame col0 data1 df))
                        (second_pass_frame col0 data1 df) ;;
     convert_date to_datetime df3).
Proof.
  intros Hm Hg Ht. unfold normalize. rewrite Hm.
  rewrite (convert_date_ok _ data data1);
    [| rewrite getitem_rename_fresh; [exact Hg | apply Date_fresh] | exact Ht].
  unfold second_pass_frame. cbn [bind].
  destruct (bind _ _) as [tr r]. reflexivity.
Qed.

(** What a successful normalization went through. *)
Lemma normalize_Done (df df' : DataFrame) (tr : list event) :
  normalize to_datetime (Some df) = (tr, Done df') ->
  exists col0 cols data data1 d1 s1 c1 data' data2,
    matching "date" (standardize_columns df) = col0 :: cols /\
    getitem col0 (standardize_columns df) = [data] /\
    to_datetime data = Some data1 /\
    let df2 := second_pass_frame col0 data1 df in
    hd_error (matching "date" df2) = Some d1 /\
    hd_error (matching "sales" df2) = Some s1 /\
    hd_error (matching "category" df2) = Some c1 /\
    let df3 := rename c1 "Category" (rename s1 "Sales" (rename d1 "Date" df2)) in
    getitem "Date" df3 = [data'] /\
    to_datetime data' = Some data2 /\
    df' = setitem "Date" data2 df3 /\
    tr = [].
Proof.
  intros Hrun.
  destruct (matching "date" (standardize_columns df)) as [|col0 cols] eqn:Hm.
  { rewrite (normalize_no_date _ Hm) in Hrun. discriminate. }
  assert (Hfirst : exists data data1,
             getitem col0 (standardize_columns df) = [data] /\
             to_datetime data = Some data1).
  { unfold normalize in Hrun. rewrite Hm in Hrun.
    destruct (convert_date to_datetime
                (rename col0 "Date" (standardize_columns df)))
      as [tr1 [df1| |e]] eqn:Hc; try discriminate.
    apply convert_date_Done in Hc as (_ & data & data1 & Hg & Ht & _).
    rewrite getitem_rename_fresh in Hg by apply Date_fresh.
    now exists data, data1. }
  destruct Hfirst as (data & data1 & Hg & Ht).
  rewrite (normalize_first_pass _ _ _ _ _ Hm Hg Ht) in Hrun.
  rewrite rename_loop_column_map in Hrun.
  set (df2 := second_pass_frame col0 data1 df) in *.
  destruct (matching "date" df2) as [|d1 ?] eqn:Hd; [discriminate|].
  destruct (matching "sales" df2) as [|s1 ?] eqn:Hs; [discriminate|].
  destruct (matching "category" df2) as [|c1 ?] eqn:Hcat; [discriminate|].
  cbn [bind ret] in Hrun.
  destruct (convert_date to_datetime _) as [tr3 r3] eqn:Hc in Hrun.
  injection Hrun as <- ->.
  apply convert_date_Done in Hc as (-> & data' & data2 & Hg' & Ht' & ->).
  exists col0, cols, data, data1, d1, s1, c1, data', data2.
  cbv zeta. fold df2. rewrite Hd, Hs, Hcat. repeat split; auto.
Qed.

End NormalizerFacts.

(** ** First matches *)

Lemma first_match_spec (key : string) (names : list string) :
  match first_match key names with
  | Some i =>
      exists n, nth_error names i = Some n /\
                Py.contains key n = true /\
                hd_error (filter (Py.contains key) names) = Some n /\
                forall j m, j < i -> nth_error names j = Some m ->
                            Py.contains key m = false
  | None => filter (Py.contains key) names = []
  end.
Proof.
  induction names as [|a names IH]; simpl; [reflexivity|].
  destruct (Py.contains key a) eqn:Ha.
  - exists a. repeat split; auto. intros j m Hj. lia.
  - destruct (first_match key names) as [i|]; simpl; [|exact IH].
    destruct IH as (n & Hn & Hc & Hhd & Hbefore).
    exists n. repeat split; auto.
    intros [|j] m Hj Hm; simpl in Hm.
    + congruence.
    + apply (Hbefore j m); [lia | exact Hm].
Qed.

Lemma first_match_of_head (key : string) (names : list string) (n : string)
    (rest : list string) :
  filter (Py.contains key) names = n :: rest ->
  exists i, first_match key names = Some i /\ nth_error names i = Some n.
Proof.
  intros Hf. pose proof (first_match_spec key names) as Hspec.
  destruct (first_match key names) as [i|].
  - destruct Hspec as (n' & Hn & _ & Hhd & _).
    rewrite Hf in Hhd. simpl in Hhd. injection Hhd as <-. eauto.
  - congruence.
Qed.

(** After the first pass the date column reads "date" and is the first
    match for "date" again. *)
Lemma second_pass_date_head (names : list string) (col0 : string)
    (cols : list string) :
  filter (Py.contains "date") names = col0 :: cols ->
  hd_error (filter (Py.contains "date") (map (relabel col0 "date") names))
  = Some "date".
Proof.
  intros Hf.
  assert (Hc0 : Py.contains "date" col0 = true).
  { assert (Hin : In col0 (filter (Py.contains "date") names))
      by (rewrite Hf; now left).
    now apply filter_In in Hin. }
  induction names as [|a names IH]; simpl in *; [discriminate|].
  destruct (Py.contains "date" a) eqn:Ha.
  - injection Hf as -> _.
    replace (relabel col0 "date" col0) with "date"
      by (unfold relabel; now rewrite String.eqb_refl).
    reflexivity.
  - replace (relabel col0 "date" a) with a.
    + rewrite Ha. now apply IH.
    + unfold relabel.
      destruct (String.eqb_spec a col0) as [->|_]; [congruence|reflexivity].
Qed.

Lemma second_pass_columns (col0 : string) (data : Series) (df : DataFrame) :
  columns (second_pass_frame col0 data df)
  = map (relabel col0 "date") (names_of df).
Proof.
  unfold second_pass_frame.
  rewrite columns_standardize. unfold names_of at 1.
  rewrite columns_setitem, columns_rename, columns_standardize, map_map.
  apply map_ext_in. intros n Hn. unfold relabel.
  destruct (String.eqb n col0); [reflexivity|].
  now apply names_lowercase in Hn.
Qed.

Lemma second_pass_data (col0 : string) (data : Series) (df : DataFrame) :
  map snd (second_pass_frame col0 data df)
  = map snd (setitem "Date" data (rename col0 "Date" (standardize_columns df))).
Proof. unfold second_pass_frame. apply data_standardize. Qed.

(** The second pass sees lower-case names only. *)
Lemma second_pass_lowercase (col0 : string) (data : Series) (df : DataFrame)
    (n : string) :
  In n (columns (second_pass_frame col0 data df)) ->
  n <> "Date" /\ n <> "Sales" /\ n <> "Category".
Proof.
  rewrite second_pass_columns. intros Hin.
  apply in_map_iff in Hin as (m & <- & Hm). unfold relabel.
  destruct (String.eqb m col0).
  - repeat split; discriminate.
  - now apply names_lowercase in Hm.
Qed.

Lemma matching_head_In (key : string) (df : DataFrame) (n : string) :
  hd_error (matching key df) = Some n ->
  In n (columns df) /\ Py.contains key n = true.
Proof.
  unfold matching. intros Hhd.
  destruct (filter (Py.contains key) (columns df)) as [|x l] eqn:Hf;
    [discriminate|].
  injection Hhd as ->.
  assert (Hin : In n (filter (Py.contains key) (columns df)))
    by (rewrite Hf; now left).
  now apply filter_In in Hin.
Qed.

Lemma getitem_at (name : string) (df : DataFrame) (data d : Series) (i : nat) :
  getitem name df = [data] -> nth_error df i = Some (name, d) -> d = data.
Proof.
  unfold getitem. intros Hg Hi.
  assert (Hin : In d (map snd (filter (fun c => String.eqb (fst c) name) df))).
  { apply in_map_iff. exists (name, d). split; [reflexivity|].
    apply filter_In. split; [eapply nth_error_In; eauto|].
    apply String.eqb_refl. }
  rewrite Hg in Hin. destruct Hin as [<- | []]. reflexivity.
Qed.

Lemma setitem_at (name : string) (x d : Series) (df : DataFrame) (i : nat) :
  nth_error df i = Some (name, d) ->
  nth_error (setitem name x df) i = Some (name, x).
Proof.
  intros Hi. unfold setitem. rewrite nth_error_map, Hi. simpl.
  now rewrite String.eqb_refl.
Qed.

Lemma nth_error_frame (df : DataFrame) (i : nat) (n : string) (d : Series) :
  nth_error (columns df) i = Some n ->
  nth_error (map snd df) i = Some d ->
  nth_error df i = Some (n, d).
Proof.
  unfold columns. rewrite !nth_error_map.
  destruct (nth_error df i) as [[n' d']|]; simpl; congruence.
Qed.

Lemma relabel_eq (old new : string) : relabel old new old = new.
Proof. unfold relabel. now rewrite String.eqb_refl. Qed.

Lemma relabel_neq (old new n : string) : n <> old -> relabel old new n = n.
Proof.
  unfold relabel. intros Hne.
  destruct (String.eqb_spec n old); [contradiction | reflexivity].
Qed.

(** ** What normalization leaves alone *)

Section Frame.

Variable to_datetime : Series -> option Series.

(** The two conversions of a successful run hit the same column: the
    first one whose name contains "date". *)
Lemma normalize_Done_date_column (df df' : DataFrame) (tr : list event) :
  normalize to_datetime (Some df) = (tr, Done df') ->
  exists i data data1 data2,
    first_match "date" (names_of df) = Some i /\
    nth_error (map snd df) i = Some data /\
    to_datetime data = Some data1 /\
    to_datetime data1 = Some data2 /\
    nth_error df' i = Some ("Date", data2) /\
    List.length df' = List.length df /\
    forall j, j <> i ->
      nth_error (columns df') j <> Some "Date" /\
      nth_error (map snd df') j = nth_error (map snd df) j.
Proof.
  intros Hrun.
  destruct (normalize_Done _ _ _ _ Hrun)
    as (col0 & cols & data & data1 & d1 & s1 & c1 & data' & data2 &
        Hm & Hg & Ht & Hd1 & Hs1 & Hc1 & Hg' & Ht' & -> & ->).
  set (dfA := rename col0 "Date" (standardize_columns df)) in *.
  set (df2 := second_pass_frame col0 data1 df) in *.
  set (df3 := rename c1 "Category" (rename s1 "Sales" (rename d1 "Date" df2))) in *.
  (* the first match *)
  unfold matching in Hm. rewrite columns_standardize in Hm.
  destruct (first_match_of_head _ _ _ _ Hm) as (i & Hi & Hni).
  (* the second pass finds the same column *)
  assert (Hd : d1 = "date").
  { unfold matching in Hd1. unfold df2 in Hd1.
    rewrite second_pass_columns, (second_pass_date_head _ _ _ Hm) in Hd1.
    congruence. }
  subst d1.
  apply matching_head_In in Hs1 as [Hs1 _].
  apply matching_head_In in Hc1 as [Hc1 _].
  apply second_pass_lowercase in Hs1 as (Hs1 & _).
  apply second_pass_lowercase in Hc1 as (Hc1 & _).
  (* column i before and after the first conversion *)
  assert (HgA : getitem "Date" dfA = [data]).
  { unfold dfA. rewrite getitem_rename_fresh; [exact Hg | apply Date_fresh]. }
  assert (HlabA : nth_error (columns dfA) i = Some "Date").
  { unfold dfA. rewrite columns_rename, columns_standardize, nth_error_map, Hni.
    cbn [option_map]. now rewrite relabel_eq. }
  assert (Hdata : exists d, nth_error (map snd df) i = Some d).
  { destruct (nth_error (map snd df) i) as [d|] eqn:Hnone; [eauto|].
    apply nth_error_None in Hnone.
    assert (Hlt : i < List.length (names_of df))
      by (apply nth_error_Some; congruence).
    unfold names_of, columns in Hlt. rewrite !length_map in *. lia. }
  destruct Hdata as (d & Hd).
  assert (HdA : nth_error dfA i = Some ("Date", d)).
  { apply nth_error_frame; [exact HlabA|].
    unfold dfA. now rewrite data_rename, data_standardize. }
  assert (d = data) by (eapply getitem_at; eauto). subst d.
  assert (Hlab3 : nth_error (columns df3) i = Some "Date").
  { unfold df3, df2. rewrite !columns_rename, second_pass_columns.
    rewrite !nth_error_map, Hni. cbn [option_map].
    rewrite !relabel_eq, (relabel_neq s1), (relabel_neq c1);
      [reflexivity | congruence | congruence]. }
  assert (Hdata3 : map snd df3 = map snd (setitem "Date" data1 dfA)).
  { unfold df3, df2. now rewrite !data_rename, second_pass_data. }
  assert (Hd3 : nth_error df3 i = Some ("Date", data1)).
  { apply nth_error_frame; [exact Hlab3|]. rewrite Hdata3.
    rewrite nth_error_map, (setitem_at _ _ _ _ _ HdA). reflexivity. }
  assert (data1 = data') by (eapply getitem_at; eauto). subst data'.
  exists i, data, data1, data2. repeat split; auto.
  - now apply setitem_at with (d := data1).
  - rewrite setitem_length. unfold df3, df2, second_pass_frame, rename,
      standardize_columns, setitem. rewrite !length_map. reflexivity.
  - rewrite columns_setitem. intros Hj. apply H.
    exact (getitem_single_position _ _ _ Hg' j i Hj Hlab3).
  - assert (H3 : nth_error (columns df3) j <> Some "Date").
    { intros Hj. apply H.
      exact (getitem_single_position _ _ _ Hg' j i Hj Hlab3). }
    assert (HA : nth_error (columns dfA) j <> Some "Date").
    { intros Hj. apply H.
      exact (getitem_single_position _ _ _ HgA j i Hj HlabA). }
    rewrite (setitem_other _ _ _ _ H3), Hdata3, (setitem_other _ _ _ _ HA).
    unfold dfA. now rewrite data_rename, data_standardize.
Qed.

End Frame.

Lemma iso_to_datetime_length (col col' : Series) :
  iso_to_datetime col = Some col' -> List.length col' = List.length col.
Proof.
  revert col'. induction col as [|v col IH]; simpl; intros col' H.
  - injection H as <-. reflexivity.
  - destruct (iso_cell v); [|discriminate].
    destruct (iso_to_datetime col) as [col''|]; [|discriminate].
    injection H as <-. simpl. f_equal. now apply IH.
Qed.

(** C10.  When normalization succeeds, given that [pd.to_datetime] returns
    as many values as it is given: the table has the same columns in the
    same order, every column other than the date column (the first whose
    name contains "date") holds the same cells in the same rows, columns
    matching no field included, and the date column holds the converted
    dates, one per row. *)
Theorem normalize_frame (to_datetime : Series -> option Series)
    (df df' : DataFrame) (tr : list event) :
  (forall col col', to_datetime col = Some col' ->
                    List.length col' = List.length col) ->
  normalize to_datetime (Some df) = (tr, Done df') ->
  List.length df' = List.length df /\
  exists i data data1 data2,
    first_match "date" (names_of df) = Some i /\
    nth_error (map snd df) i = Some data /\
    to_datetime data = Some data1 /\
    to_datetime data1 = Some data2 /\
    nth_error (map snd df') i = Some data2 /\
    List.length data2 = List.length data /\
    forall j, j <> i ->
      nth_error (map snd df') j = nth_error (map snd df) j.
Proof.
  intros Hlen Hrun.
  destruct (normalize_Done_date_column _ _ _ _ Hrun)
    as (i & data & data1 & data2 & Hi & Hd & Ht1 & Ht2 & Hd' & Hl & Hother).
  split; [exact Hl|].
  exists i, data, data1, data2. repeat split; auto.
  - rewrite nth_error_map, Hd'. reflexivity.
  - rewrite (Hlen _ _ Ht2). now apply Hlen.
  - intros j Hj. now apply Hother.
Qed.

Lemma normalize_frame_witness :
  normalize iso_to_datetime (Some plain_frame)
  = ([], Done [ ("Date", timestamps3);
                ("Category", labels3); ("Sales", units3); ("store", stores3) ]) /\
  exists df',
    normalize iso_to_datetime (Some plain_frame) = ([], Done df') /\
    List.length df' = List.length plain_frame /\
    nth_error (map snd df') 3 = Some stores3.
Proof.
  assert (Hrun : normalize iso_to_datetime (Some plain_frame)
    = ([], Done [ ("Date", timestamps3);
                  ("Category", labels3); ("Sales", units3); ("store", stores3) ]))
    by (vm_compute; reflexivity).
  split; [exact Hrun|].
  eexists. split; [exact Hrun|].
  destruct (normalize_frame iso_to_datetime plain_frame _ []
              iso_to_datetime_length Hrun)
    as (Hlen & i & data & data1 & data2 & Hi & _ & _ & _ & _ & _ & Hother).
  split; [exact Hlen|].
  vm_compute in Hi. injection Hi as <-.
  rewrite (Hother 3) by discriminate. reflexivity.
Defined.

(** ** Missing fields *)

Lemma first_match_None_iff (key : string) (names : list string) :
  first_match key names = None <->
  forall n, In n names -> Py.contains key n = false.
Proof.
  induction names as [|a names IH]; simpl.
  - split; [intros _ n [] | reflexivity].
  - destruct (Py.contains key a) eqn:Ha.
    + split; [discriminate|]. intros H. specialize (H a (or_introl eq_refl)).
      congruence.
    + destruct (first_match key names) as [i|]; simpl.
      * split; [discriminate|]. intros H. exfalso.
        assert (Hnone : Some i = None); [|discriminate].
        apply IH. intros n Hn. apply H. now right.
      * split; [|reflexivity]. intros _ n [<- | Hn]; [exact Ha|].
        now apply (proj1 IH).
Qed.

Lemma first_match_None_filter (key : string) (names : list string) :
  first_match key names = None -> filter (Py.contains key) names = [].
Proof.
  intros H. pose proof (first_match_spec key names) as Hs.
  now rewrite H in Hs.
Qed.

Lemma first_match_Some_filter (key : string) (names : list string) (i : nat) :
  first_match key names = Some i ->
  exists n rest, filter (Py.contains key) names = n :: rest.
Proof.
  intros H. pose proof (first_match_spec key names) as Hs. rewrite H in Hs.
  destruct Hs as (n & _ & _ & Hhd & _).
  destruct (filter (Py.contains key) names) as [|x l]; [discriminate|]. eauto.
Qed.

(** A column taken as the date column reads "date" in the second pass; if
    its name contained neither of the other fields, their first matches
    stay where they were. *)
Lemma first_match_relabel (key col0 : string) (names : list string) :
  Py.contains key col0 = false -> Py.contains key "date" = false ->
  first_match key (map (relabel col0 "date") names) = first_match key names.
Proof.
  intros H0 Hd. induction names as [|a names IH]; simpl; [reflexivity|].
  rewrite IH. unfold relabel.
  destruct (String.eqb_spec a col0) as [->|_]; [|reflexivity].
  now rewrite H0, Hd.
Qed.

Lemma first_match_relabel_None (key col0 : string) (names : list string) :
  Py.contains key "date" = false ->
  first_match key names = None ->
  first_match key (map (relabel col0 "date") names) = None.
Proof.
  intros Hd Hnone. apply first_match_None_iff.
  intros n Hn. apply in_map_iff in Hn as (m & <- & Hm). unfold relabel.
  destruct (String.eqb m col0); [exact Hd|].
  now apply (proj1 (first_match_None_iff key names)).
Qed.

(** The labels listed at a stop, as the passes over the table leave
    them. *)
Lemma dated_relabel (col0 n : string) :
  relabel "date" "Date" (relabel col0 "date" n)
  = if String.eqb n col0 || String.eqb n "date" then "Date" else n.
Proof.
  destruct (String.eqb_spec n col0) as [->|Hne].
  - rewrite relabel_eq. apply relabel_eq.
  - rewrite (relabel_neq col0) by exact Hne. cbn [orb]. reflexivity.
Qed.

Lemma sales_after_date (col0 : string) (names : list string) :
  filter (Py.contains "sales") (map (relabel col0 "date") names)
  = filter (fun n => Py.contains "sales" n && negb (String.eqb n col0)) names.
Proof.
  induction names as [|n names IH]; [reflexivity|].
  cbn [map filter]. rewrite IH.
  destruct (String.eqb_spec n col0) as [->|Hne].
  - rewrite relabel_eq, andb_false_r.
    change (Py.contains "sales" "date") with false. reflexivity.
  - rewrite (relabel_neq col0) by exact Hne. now rewrite andb_true_r.
Qed.

Lemma listing_same (names : list string) :
  filter (Py.contains "date") names = [] ->
  available_columns names = names.
Proof. intros Hf. unfold available_columns. now rewrite Hf. Qed.

Lemma listing_after_date (col0 : string) (cols names : list string) :
  filter (Py.contains "date") names = col0 :: cols ->
  filter (Py.contains "sales") (map (relabel col0 "date") names) = [] ->
  available_columns names
  = map (relabel "date" "Date") (map (relabel col0 "date") names).
Proof.
  intros Hd Hs. unfold available_columns.
  rewrite Hd, <- sales_after_date, Hs, map_map.
  apply map_ext. intros n. now rewrite dated_relabel.
Qed.

Lemma listing_after_sales (col0 s1 : string) (cols rest names : list string) :
  filter (Py.contains "date") names = col0 :: cols ->
  filter (Py.contains "sales") (map (relabel col0 "date") names) = s1 :: rest ->
  available_columns names
  = map (relabel s1 "Sales")
        (map (relabel "date" "Date") (map (relabel col0 "date") names)).
Proof.
  intros Hd Hs. unfold available_columns.
  rewrite Hd, <- sales_after_date, Hs, !map_map.
  apply map_ext. intros n. now rewrite dated_relabel.
Qed.

Section MissingField.

Variable to_datetime : Series -> option Series.

(** With the date column converted, the run stops on the field that
    [reported_field] computes from the names. *)
Lemma reported_field_stops (df : DataFrame) (key : string) :
  date_converts to_datetime df ->
  reported_field (names_of df) = Some key ->
  stops_reporting to_datetime df key.
Proof.
  intros Hconv. unfold reported_field.
  destruct (filter (Py.contains "date") (names_of df)) as [|col0 cols] eqn:Hm.
  - intros H. injection H as <-. unfold stops_reporting.
    rewrite normalize_no_date
      by (unfold matching; now rewrite columns_standardize).
    unfold stop_missing. rewrite columns_standardize.
    now rewrite (listing_same _ Hm).
  - assert (Hm' : matching "date" (standardize_columns df) = col0 :: cols)
      by (unfold matching; now rewrite columns_standardize).
    destruct (Hconv col0 cols Hm') as (data & data1 & Hg & Ht).
    rewrite <- (second_pass_columns col0 data1 df).
    intros Hkey. unfold stops_reporting.
    rewrite (normalize_first_pass _ _ _ _ _ _ Hm' Hg Ht), rename_loop_column_map.
    set (df2 := second_pass_frame col0 data1 df) in *.
    pose proof (second_pass_date_head _ _ _ Hm) as Hhd.
    rewrite <- (second_pass_columns col0 data1 df) in Hhd. fold df2 in Hhd.
    unfold matching at 1.
    destruct (filter (Py.contains "date") (columns df2)) as [|d1 ?];
      [discriminate|].
    injection Hhd as ->.
    destruct (first_match "sales" (columns df2)) as [i|] eqn:Hs.
    + destruct (first_match_Some_filter _ _ _ Hs) as (s1 & rest & Hfs).
      unfold matching at 1. rewrite Hfs.
      destruct (first_match "category" (columns df2)) as [j|] eqn:Hc;
        [discriminate|].
      injection Hkey as <-.
      unfold matching. rewrite (first_match_None_filter _ _ Hc).
      unfold stop_missing. rewrite !columns_rename.
      unfold df2 in Hfs |- *. rewrite second_pass_columns in Hfs |- *.
      now rewrite (listing_after_sales _ _ _ _ _ Hm Hfs).
    + injection Hkey as <-.
      unfold matching at 1.
      pose proof (first_match_None_filter _ _ Hs) as Hfs. rewrite Hfs.
      unfold stop_missing. rewrite !columns_rename.
      unfold df2 in Hfs |- *. rewrite second_pass_columns in Hfs |- *.
      now rewrite (listing_after_date _ _ _ Hm Hfs).
Qed.

End MissingField.

(** A table that lacks a field is always refused; the field reported is
    the missing one unless the date column's own name hid it. *)
Lemma reported_of_missing (names : list string) (key : string) :
  first_missing names = Some key ->
  exists key',
    reported_field names = Some key' /\
    ((forall col0 cols, filter (Py.contains "date") names = col0 :: cols ->
        Py.contains "sales" col0 = false /\
        Py.contains "category" col0 = false) ->
     key' = key).
Proof.
  unfold first_missing, fields, reported_field. cbn [find].
  destruct (first_match "date" names) as [i|] eqn:Hd.
  - destruct (first_match_Some_filter _ _ _ Hd) as (col0 & cols & Hf).
    rewrite Hf.
    destruct (first_match "sales" names) as [k|] eqn:Hs.
    + destruct (first_match "category" names) as [l|] eqn:Hc; [discriminate|].
      intros H. injection H as <-.
      rewrite (first_match_relabel_None "category" col0 names eq_refl Hc).
      destruct (first_match "sales" (map (relabel col0 "date") names)) eqn:Hs'.
      * exists "category". auto.
      * exists "sales". split; [reflexivity|]. intros Hclean.
        destruct (Hclean col0 cols eq_refl) as [Hcs _].
        rewrite (first_match_relabel "sales" col0 names Hcs eq_refl) in Hs'.
        congruence.
    + intros H. injection H as <-.
      rewrite (first_match_relabel_None "sales" col0 names eq_refl Hs).
      exists "sales". auto.
  - intros H. injection H as <-.
    rewrite (first_match_None_filter _ _ Hd). exists "date". auto.
Qed.

(** C7, as stated, fails: a table with the columns "Sales Date" and
    "Store" lacks the category, and the run stops on Sales. *)
Lemma missing_category_reports_sales :
  ~ reports_missing_field iso_to_datetime no_category_frame.
Proof.
  intros H. pose proof (H "category" eq_refl) as Hrun.
  vm_compute in Hrun. discriminate.
Qed.

(** C7, amended.  For every input table that lacks a column for one of the
    three fields and whose date column, if there is one, shares its name
    with no other column and is converted without error, normalization
    stops the run after naming one field and listing the labels of all
    the columns as they stand at the stop: the trimmed, lower-cased names,
    with Date in place of the date column's name once that column has been
    found, and Sales in place of the name of the first other column
    containing "sales" when the field named is Category.  The field is
    Date when no name contains
    "date"; otherwise it is Sales or Category, the first that no column
    other than the date column contains.  It is the first missing field
    itself whenever the date column's name contains neither "sales" nor
    "category". *)
Theorem missing_field_reported (to_datetime : Series -> option Series)
    (df : DataFrame) (key : string) :
  date_converts to_datetime df ->
  first_missing (names_of df) = Some key ->
  exists key',
    reported_field (names_of df) = Some key' /\
    stops_reporting to_datetime df key' /\
    ((forall col0 cols,
        filter (Py.contains "date") (names_of df) = col0 :: cols ->
        Py.contains "sales" col0 = false /\
        Py.contains "category" col0 = false) ->
     key' = key).
Proof.
  intros Hconv Hmiss.
  destruct (reported_of_missing _ _ Hmiss) as (key' & Hrep & Hsame).
  exists key'. split; [exact Hrep|]. split; [|exact Hsame].
  now apply reported_field_stops.
Qed.

Lemma missing_field_reported_witness :
  date_converts iso_to_datetime no_sales_frame /\
  first_missing (names_of no_sales_frame) = Some "sales" /\
  stops_reporting iso_to_datetime no_sales_frame "sales".
Proof.
  assert (Hconv : date_converts iso_to_datetime no_sales_frame).
  { intros col0 cols Hm. vm_compute in Hm. injection Hm as <- <-.
    exists dates3, timestamps3. split; reflexivity. }
  assert (Hmiss : first_missing (names_of no_sales_frame) = Some "sales")
    by reflexivity.
  split; [exact Hconv|]. split; [exact Hmiss|].
  destruct (missing_field_reported iso_to_datetime no_sales_frame "sales"
              Hconv Hmiss) as (key' & Hrep & Hstop & _).
  vm_compute in Hrep. injection Hrep as <-. exact Hstop.
Defined.

Example no_sales_run :
  normalize iso_to_datetime (Some no_sales_frame)
  = ([ st_error "❌ No column related to 'Sales' found.";
       st_write_list "Available Columns:" ["Date"; "category"] ], Stopped).
Proof. reflexivity. Qed.

Example no_category_run :
  normalize iso_to_datetime (Some no_category_frame)
  = ([ st_error "❌ No column related to 'Sales' found.";
       st_write_list "Available Columns:" ["Date"; "store"] ], Stopped).
Proof. reflexivity. Qed.

(** ** Renaming the first matches *)

Lemma normalize_run (to_datetime : Series -> option Series) (df : DataFrame)
    (col0 d1 s1 c1 : string) (cols : list string) (data data1 data' data2 : Series) :
  matching "date" (standardize_columns df) = col0 :: cols ->
  getitem col0 (standardize_columns df) = [data] ->
  to_datetime data = Some data1 ->
  let df2 := second_pass_frame col0 data1 df in
  hd_error (matching "date" df2) = Some d1 ->
  hd_error (matching "sales" df2) = Some s1 ->
  hd_error (matching "category" df2) = Some c1 ->
  let df3 := rename c1 "Category" (rename s1 "Sales" (rename d1 "Date" df2)) in
  getitem "Date" df3 = [data'] ->
  to_datetime data' = Some data2 ->
  normalize to_datetime (Some df) = ([], Done (setitem "Date" data2 df3)).
Proof.
  intros Hm Hg Ht df2 Hd Hs Hc df3 Hg' Ht'.
  rewrite (normalize_first_pass _ _ _ _ _ _ Hm Hg Ht), rename_loop_column_map.
  fold df2.
  destruct (matching "date" df2) as [|? ?]; [discriminate|]. injection Hd as ->.
  destruct (matching "sales" df2) as [|? ?]; [discriminate|]. injection Hs as ->.
  destruct (matching "category" df2) as [|? ?]; [discriminate|]. injection Hc as ->.
  fold df3. cbn [bind ret].
  now rewrite (convert_date_ok _ _ _ _ Hg' Ht').
Qed.

Lemma getitem_unique_label (name : string) (df : DataFrame) :
  forall (i : nat) (d : Series),
    (forall j, nth_error (columns df) j = Some name -> j = i) ->
    nth_error df i = Some (name, d) ->
    getitem name df = [d].
Proof.
  unfold getitem, columns.
  induction df as [|[n x] df IH]; intros i d Huniq Hi.
  - destruct i; discriminate.
  - destruct i as [|i]; simpl in Hi.
    + injection Hi as -> ->. simpl. rewrite String.eqb_refl. simpl. f_equal.
      assert (Hnone : filter (fun c => String.eqb (fst c) name) df = []).
      { destruct (filter (fun c => String.eqb (fst c) name) df) as [|y l] eqn:Hf;
          [reflexivity|].
        assert (Hin : In y (filter (fun c => String.eqb (fst c) name) df))
          by (rewrite Hf; now left).
        apply filter_In in Hin as [Hin Hy]. apply String.eqb_eq in Hy.
        apply In_nth_error in Hin as (k & Hk).
        specialize (Huniq (S k)). simpl in Huniq.
        rewrite nth_error_map, Hk in Huniq. simpl in Huniq.
        rewrite Hy in Huniq. specialize (Huniq eq_refl). discriminate. }
      now rewrite Hnone.
    + simpl. destruct (String.eqb_spec n name) as [->|Hne].
      * specialize (Huniq 0 eq_refl). discriminate.
      * apply (IH i); [|exact Hi].
        intros j Hj. specialize (Huniq (S j) Hj). lia.
Qed.

(** A first match that is not the date column is still the first match
    once the date column reads "date". *)
Lemma head_filter_relabel (key col0 x : string) (names : list string) :
  Py.contains key "date" = false ->
  hd_error (filter (Py.contains key) names) = Some x ->
  x <> col0 ->
  hd_error (filter (Py.contains key) (map (relabel col0 "date") names)) = Some x.
Proof.
  intros Hd Hhd Hne.
  induction names as [|a names IH]; cbn [filter map] in Hhd |- *;
    [discriminate|].
  destruct (Py.contains key a) eqn:Ha.
  - cbn [hd_error] in Hhd. injection Hhd as ->.
    rewrite (relabel_neq col0 "date" x Hne), Ha. reflexivity.
  - destruct (String.eqb_spec a col0) as [->|Hac].
    + rewrite relabel_eq, Hd. now apply IH.
    + rewrite (relabel_neq col0 "date" a Hac), Ha. now apply IH.
Qed.

Section Separated.

Variables col0 s0 c0 : string.
Variable names : list string.

Hypothesis Hlower :
  forall n, In n names -> n <> "Date" /\ n <> "Sales" /\ n <> "Category".
Hypothesis Hcol0 : In col0 names.
Hypothesis Hs0 : In s0 names.
Hypothesis Hc0 : In c0 names.
Hypothesis Hs0_date : s0 <> "date".
Hypothesis Hc0_date : c0 <> "date".
Hypothesis Hdate : In "date" names -> col0 = "date".

(** The four renamings of a run, taken together. *)
Lemma renamings_canonical (n : string) :
  In n names ->
  relabel c0 "Category"
    (relabel s0 "Sales"
       (relabel "date" "Date" (relabel col0 "date" n)))
  = canonical_name col0 s0 c0 n.
Proof.
  intros Hn. unfold canonical_name.
  destruct (Hlower _ Hs0) as (Hs1 & _).
  destruct (Hlower _ Hc0) as (Hc1 & Hc2 & _).
  destruct (String.eqb_spec n col0) as [->|Hne].
  - rewrite !relabel_eq, (relabel_neq s0), (relabel_neq c0);
      [reflexivity | congruence | congruence].
  - rewrite (relabel_neq col0) by exact Hne.
    assert (Hnd : n <> "date") by (intros ->; apply Hne; symmetry; auto).
    rewrite (relabel_neq "date") by exact Hnd.
    destruct (String.eqb_spec n s0) as [->|Hns].
    + rewrite relabel_eq, (relabel_neq c0); [reflexivity | congruence].
    + rewrite (relabel_neq s0) by exact Hns.
      destruct (String.eqb_spec n c0) as [->|Hnc].
      * now rewrite relabel_eq.
      * now rewrite relabel_neq.
Qed.

Lemma canonical_name_Date (n : string) :
  In n names -> canonical_name col0 s0 c0 n = "Date" -> n = col0.
Proof.
  intros Hn. unfold canonical_name.
  destruct (String.eqb_spec n col0); [auto|].
  destruct (String.eqb_spec n s0); [discriminate|].
  destruct (String.eqb_spec n c0); [discriminate|].
  intros ->. apply Hlower in Hn. tauto.
Qed.

Lemma canonical_name_Sales (n : string) :
  In n names -> canonical_name col0 s0 c0 n = "Sales" -> n = s0.
Proof.
  intros Hn. unfold canonical_name.
  destruct (String.eqb_spec n col0); [discriminate|].
  destruct (String.eqb_spec n s0); [auto|].
  destruct (String.eqb_spec n c0); [discriminate|].
  intros ->. apply Hlower in Hn. tauto.
Qed.

Lemma canonical_name_Category (n : string) :
  In n names -> canonical_name col0 s0 c0 n = "Category" -> n = c0.
Proof.
  intros Hn. unfold canonical_name.
  destruct (String.eqb_spec n col0); [discriminate|].
  destruct (String.eqb_spec n s0); [discriminate|].
  destruct (String.eqb_spec n c0); [auto|].
  intros ->. apply Hlower in Hn. tauto.
Qed.

End Separated.

Lemma NoDup_same_position (names : list string) :
  NoDup names ->
  forall i j n, nth_error names i = Some n -> nth_error names j = Some n -> i = j.
Proof.
  intros Hnd i j n Hi Hj.
  apply (proj1 (NoDup_nth_error names) Hnd).
  - apply nth_error_Some. congruence.
  - congruence.
Qed.

Lemma canonical_name_other (d s c n : string) :
  n <> d -> n <> s -> n <> c -> canonical_name d s c n = n.
Proof.
  intros Hd Hs Hc. unfold canonical_name.
  destruct (String.eqb_spec n d); [contradiction|].
  destruct (String.eqb_spec n s); [contradiction|].
  destruct (String.eqb_spec n c); [contradiction|reflexivity].
Qed.

(** With pairwise distinct names, three different first matches, no other
    column called "date" and a date column that converts, the run ends
    with the table whose names are the canonical ones at the three first
    matches and the trimmed, lower-cased ones elsewhere. *)
Lemma normalize_separated (to_datetime : Series -> option Series)
    (df : DataFrame) (i_d i_s i_c : nat) (col0 s0 c0 : string)
    (data data1 data2 : Series) :
  NoDup (names_of df) ->
  first_match "date" (names_of df) = Some i_d ->
  first_match "sales" (names_of df) = Some i_s ->
  first_match "category" (names_of df) = Some i_c ->
  nth_error (names_of df) i_d = Some col0 ->
  nth_error (names_of df) i_s = Some s0 ->
  nth_error (names_of df) i_c = Some c0 ->
  i_d <> i_s -> i_d <> i_c -> i_s <> i_c ->
  (forall j, nth_error (names_of df) j = Some "date" -> j = i_d) ->
  nth_error (map snd df) i_d = Some data ->
  to_datetime data = Some data1 ->
  to_datetime data1 = Some data2 ->
  exists df',
    normalize to_datetime (Some df) = ([], Done df') /\
    columns df' = map (canonical_name col0 s0 c0) (names_of df) /\
    nth_error (map snd df') i_d = Some data2 /\
    forall j, j <> i_d -> nth_error (map snd df') j = nth_error (map snd df) j.
Proof.
  intros Hnd Hfd Hfs Hfc Hnd0 Hns0 Hnc0 Hds Hdc Hsc Hdate Hdata Ht1 Ht2.
  pose proof (NoDup_same_position _ Hnd) as Hidx.
  pose proof (first_match_spec "date" (names_of df)) as Hsd. rewrite Hfd in Hsd.
  pose proof (first_match_spec "sales" (names_of df)) as Hss. rewrite Hfs in Hss.
  pose proof (first_match_spec "category" (names_of df)) as Hsc'. rewrite Hfc in Hsc'.
  destruct Hsd as (x & Hx & Hcd & Hhd & _). rewrite Hnd0 in Hx. injection Hx as <-.
  destruct Hss as (x & Hx & Hcs & Hhs & _). rewrite Hns0 in Hx. injection Hx as <-.
  destruct Hsc' as (x & Hx & Hcc & Hhc & _). rewrite Hnc0 in Hx. injection Hx as <-.
  assert (Hin_d : In col0 (names_of df)) by (eapply nth_error_In; eauto).
  assert (Hin_s : In s0 (names_of df)) by (eapply nth_error_In; eauto).
  assert (Hin_c : In c0 (names_of df)) by (eapply nth_error_In; eauto).
  assert (Hne_ds : s0 <> col0) by (intros ->; apply Hds; eapply Hidx; eauto).
  assert (Hne_dc : c0 <> col0) by (intros ->; apply Hdc; eapply Hidx; eauto).
  assert (Hs_date : s0 <> "date") by (intros ->; discriminate).
  assert (Hc_date : c0 <> "date") by (intros ->; discriminate).
  assert (Hlower : forall n, In n (names_of df) ->
                     n <> "Date" /\ n <> "Sales" /\ n <> "Category")
    by (intros n Hn; now apply names_lowercase in Hn).
  assert (Hdate' : In "date" (names_of df) -> col0 = "date").
  { intros Hin. apply In_nth_error in Hin as (j & Hj).
    pose proof (Hdate j Hj) as ->. congruence. }
  destruct (filter (Py.contains "date") (names_of df)) as [|y cols] eqn:Hf;
    [discriminate|].
  cbn [hd_error] in Hhd. injection Hhd as ->.
  assert (Hm : matching "date" (standardize_columns df) = col0 :: cols)
    by (unfold matching; now rewrite columns_standardize).
  set (dfA := rename col0 "Date" (standardize_columns df)).
  set (df2 := second_pass_frame col0 data1 df).
  set (df3 := rename c0 "Category" (rename s0 "Sales" (rename "date" "Date" df2))).
  assert (Hstd : nth_error (standardize_columns df) i_d = Some (col0, data)).
  { apply nth_error_frame; [now rewrite columns_standardize|].
    now rewrite data_standardize. }
  assert (Hg : getitem col0 (standardize_columns df) = [data]).
  { apply (getitem_unique_label _ _ i_d); [|exact Hstd].
    rewrite columns_standardize. intros j Hj. eapply Hidx; eauto. }
  assert (Hcols3 : columns df3 = map (canonical_name col0 s0 c0) (names_of df)).
  { unfold df3, df2. rewrite !columns_rename, second_pass_columns, !map_map.
    apply map_ext_in. intros n Hn.
    apply renamings_canonical with (names := names_of df); auto. }
  assert (HdA : nth_error dfA i_d = Some ("Date", data)).
  { unfold dfA, rename. rewrite nth_error_map, Hstd. cbn [option_map fst snd].
    now rewrite String.eqb_refl. }
  assert (Hdata3 : map snd df3 = map snd (setitem "Date" data1 dfA)).
  { unfold df3, df2. now rewrite !data_rename, second_pass_data. }
  assert (Hd3 : nth_error df3 i_d = Some ("Date", data1)).
  { apply nth_error_frame.
    - rewrite Hcols3, nth_error_map, Hnd0. cbn [option_map].
      unfold canonical_name. now rewrite String.eqb_refl.
    - rewrite Hdata3, nth_error_map, (setitem_at _ _ _ _ _ HdA). reflexivity. }
  assert (Huniq3 : forall j, nth_error (columns df3) j = Some "Date" -> j = i_d).
  { intros j. rewrite Hcols3, nth_error_map.
    destruct (nth_error (names_of df) j) as [n|] eqn:Hj; [|discriminate].
    cbn [option_map]. intros H. injection H as H.
    apply canonical_name_Date with (names := names_of df) in H;
      [|auto|eapply nth_error_In; eauto].
    subst n. eapply Hidx; eauto. }
  assert (Hg3 : getitem "Date" df3 = [data1])
    by (apply (getitem_unique_label _ _ i_d); assumption).
  exists (setitem "Date" data2 df3). repeat split.
  - apply (normalize_run to_datetime df col0 "date" s0 c0 cols data data1 data1 data2);
      auto; unfold matching; rewrite second_pass_columns.
    + eapply second_pass_date_head; eauto.
    + apply head_filter_relabel; [reflexivity | exact Hhs | exact Hne_ds].
    + apply head_filter_relabel; [reflexivity | exact Hhc | exact Hne_dc].
  - now rewrite columns_setitem.
  - now rewrite nth_error_map, (setitem_at _ _ _ _ _ Hd3).
  - intros j Hj.
    assert (H3 : nth_error (columns df3) j <> Some "Date")
      by (intros H; apply Hj; now apply Huniq3).
    assert (HA : nth_error (columns dfA) j <> Some "Date").
    { intros H. apply Hj. unfold dfA in H.
      rewrite columns_rename, columns_standardize, nth_error_map in H.
      destruct (nth_error (names_of df) j) as [n|] eqn:Hn; [|discriminate].
      cbn [option_map] in H. injection H as H. unfold relabel in H.
      destruct (String.eqb_spec n col0) as [->|_].
      - eapply Hidx; eauto.
      - apply nth_error_In, Hlower in Hn. tauto. }
    rewrite (setitem_other _ _ _ _ H3), Hdata3, (setitem_other _ _ _ _ HA).
    unfold dfA. now rewrite data_rename, data_standardize.
Qed.

(** C2, as stated, fails: in the table "Sales Date", "Sales", "Category"
    the first column containing "sales" is the first one, and it ends up
    as Date; Sales goes to the second. *)
Lemma first_sales_match_taken_as_date :
  (forall key, In key fields ->
     first_match key (names_of sales_date_frame) <> None) /\
  ~ renames_first_matches iso_to_datetime sales_date_frame.
Proof.
  split.
  - intros key [<- | [<- | [<- | []]]]; discriminate.
  - intros (df' & Hrun & Hfirst & _).
    assert (Hc : columns df' = ["Date"; "Sales"; "Category"]).
    { assert (Hrun' : normalize iso_to_datetime (Some sales_date_frame)
                      = ([], Done [ ("Date", timestamps3); ("Sales", units3);
                                    ("Category", labels3) ]))
        by reflexivity.
      rewrite Hrun' in Hrun. injection Hrun as <-. reflexivity. }
    assert (Hin : In "sales" fields) by (simpl; auto).
    destruct (Hfirst "sales" 0 Hin eq_refl 0) as [_ H].
    specialize (H eq_refl). rewrite Hc in H. discriminate.
Qed.

(** C2, amended.  For every input table whose trimmed, lower-cased column
    names are pairwise distinct, in which the first columns containing
    "date", "sales" and "category" are three different columns, no other
    column is called "date", and the date column converts (as does the
    converted column again), the normalizer ends without any message and
    gives the names Date, Sales and Category to exactly those three first
    matches, each other column keeping its trimmed, lower-cased name. *)
Theorem first_matches_renamed (to_datetime : Series -> option Series)
    (df : DataFrame) (i_d i_s i_c : nat) (data data1 data2 : Series) :
  NoDup (names_of df) ->
  first_match "date" (names_of df) = Some i_d ->
  first_match "sales" (names_of df) = Some i_s ->
  first_match "category" (names_of df) = Some i_c ->
  i_d <> i_s -> i_d <> i_c -> i_s <> i_c ->
  (forall j, nth_error (names_of df) j = Some "date" -> j = i_d) ->
  nth_error (map snd df) i_d = Some data ->
  to_datetime data = Some data1 ->
  to_datetime data1 = Some data2 ->
  renames_first_matches to_datetime df.
Proof.
  intros Hnd Hfd Hfs Hfc Hds Hdc Hsc Hdate Hdata Ht1 Ht2.
  pose proof (NoDup_same_position _ Hnd) as Hidx.
  pose proof (first_match_spec "date" (names_of df)) as Hsd. rewrite Hfd in Hsd.
  pose proof (first_match_spec "sales" (names_of df)) as Hss. rewrite Hfs in Hss.
  pose proof (first_match_spec "category" (names_of df)) as Hsc'. rewrite Hfc in Hsc'.
  destruct Hsd as (col0 & Hnd0 & _).
  destruct Hss as (s0 & Hns0 & _).
  destruct Hsc' as (c0 & Hnc0 & _).
  destruct (normalize_separated to_datetime df i_d i_s i_c col0 s0 c0
              data data1 data2) as (df' & Hrun & Hcols & _); auto.
  assert (Hne_ds : s0 <> col0) by (intros ->; apply Hds; eapply Hidx; eauto).
  assert (Hne_dc : c0 <> col0) by (intros ->; apply Hdc; eapply Hidx; eauto).
  assert (Hne_sc : c0 <> s0) by (intros ->; apply Hsc; eapply Hidx; eauto).
  assert (Hlower : forall n, In n (names_of df) ->
                     n <> "Date" /\ n <> "Sales" /\ n <> "Category")
    by (intros n Hn; now apply names_lowercase in Hn).
  assert (Hcanon : forall j target x i,
            nth_error (names_of df) i = Some x ->
            canonical_name col0 s0 c0 x = target ->
            (forall n, In n (names_of df) ->
                       canonical_name col0 s0 c0 n = target -> n = x) ->
            nth_error (columns df') j = Some target <-> j = i).
  { intros j target x i Hi Hx Honly. rewrite Hcols, nth_error_map. split.
    - destruct (nth_error (names_of df) j) as [n|] eqn:Hj; [|discriminate].
      cbn [option_map]. intros H. injection H as H.
      apply Honly in H; [|eapply nth_error_In; eauto]. subst n.
      eapply Hidx; eauto.
    - intros ->. rewrite Hi. cbn [option_map]. now rewrite Hx. }
  exists df'. split; [exact Hrun|]. split.
  - intros key i [<- | [<- | [<- | []]]] Hi j.
    + rewrite Hfd in Hi. injection Hi as <-.
      apply (Hcanon j "Date" col0 i_d Hnd0).
      * unfold canonical_name. now rewrite String.eqb_refl.
      * intros n Hn. apply canonical_name_Date with (names := names_of df); auto.
    + rewrite Hfs in Hi. injection Hi as <-.
      apply (Hcanon j "Sales" s0 i_s Hns0).
      * unfold canonical_name. rewrite String.eqb_refl.
        destruct (String.eqb_spec s0 col0); [contradiction|reflexivity].
      * intros n Hn. apply canonical_name_Sales with (names := names_of df); auto.
    + rewrite Hfc in Hi. injection Hi as <-.
      apply (Hcanon j "Category" c0 i_c Hnc0).
      * unfold canonical_name. rewrite String.eqb_refl.
        destruct (String.eqb_spec c0 col0); [contradiction|].
        destruct (String.eqb_spec c0 s0); [contradiction|reflexivity].
      * intros n Hn.
        apply canonical_name_Category with (names := names_of df); auto.
  - intros j Hj. rewrite Hcols, nth_error_map.
    destruct (nth_error (names_of df) j) as [n|] eqn:Hn; [|reflexivity].
    cbn [option_map]. f_equal. apply canonical_name_other.
    + intros ->. apply (Hj "date"); [simpl; auto|].
      rewrite Hfd. f_equal. eapply Hidx; eauto.
    + intros ->. apply (Hj "sales"); [simpl; auto|].
      rewrite Hfs. f_equal. eapply Hidx; eauto.
    + intros ->. apply (Hj "category"); [simpl; auto|].
      rewrite Hfc. f_equal. eapply Hidx; eauto.
Qed.

Lemma first_matches_renamed_witness :
  names_of plain_frame = ["order date"; "category"; "units sales"; "store"] /\
  renames_first_matches iso_to_datetime plain_frame.
Proof.
  split; [reflexivity|].
  apply (first_matches_renamed iso_to_datetime plain_frame 0 2 1
           dates3 timestamps3 timestamps3);
    try reflexivity; try discriminate.
  - change (names_of plain_frame)
      with ["order date"; "category"; "units sales"; "store"].
    repeat (constructor; [simpl; intuition discriminate|]). constructor.
  - intros [|[|[|[|j]]]] H; try reflexivity; try discriminate H.
    destruct j; discriminate H.
Defined.

(** ** Normalizing twice *)

Lemma head_filter_map (P : string -> bool) (f : string -> string)
    (l : list string) (x : string) :
  hd_error (filter P l) = Some x ->
  (forall n, In n l -> P n = false -> P (f n) = false) ->
  P (f x) = true ->
  hd_error (filter P (map f l)) = Some (f x).
Proof.
  intros Hhd Hkeep Hx.
  induction l as [|a l IH]; cbn [filter map] in Hhd |- *; [discriminate|].
  destruct (P a) eqn:Ha.
  - cbn [hd_error] in Hhd. injection Hhd as ->. now rewrite Hx.
  - rewrite (Hkeep a (or_introl eq_refl) Ha).
    apply IH; [exact Hhd|]. intros n Hn. apply Hkeep. now right.
Qed.

Lemma relabel_same (a n : string) : relabel a a n = n.
Proof.
  unfold relabel. destruct (String.eqb_spec n a); congruence.
Qed.

Lemma NoDup_map_injective {A B : Type} (f : A -> B) (l : list A) (a b : A) :
  NoDup (map f l) -> In a l -> In b l -> f a = f b -> a = b.
Proof.
  induction l as [|x l IH]; simpl; intros Hnd Ha Hb Hf; [contradiction|].
  inversion Hnd as [|? ? Hnotin Hnd']; subst.
  destruct Ha as [<- | Ha], Hb as [<- | Hb]; auto.
  - exfalso. apply Hnotin. rewrite Hf. now apply in_map.
  - exfalso. apply Hnotin. rewrite <- Hf. now apply in_map.
Qed.

Lemma frame_ext (a b : DataFrame) :
  columns a = columns b -> map snd a = map snd b -> a = b.
Proof.
  unfold columns. revert b.
  induction a as [|[n d] a IH]; intros [|[n' d'] b]; simpl; try discriminate.
  - reflexivity.
  - intros Hc Hd. injection Hc as -> Hc. injection Hd as -> Hd.
    f_equal. now apply IH.
Qed.

Lemma second_pass_idem (col0 : string) (data : Series) (df : DataFrame)
    (n : string) :
  In n (columns (second_pass_frame col0 data df)) -> strip_lower n = n.
Proof.
  rewrite second_pass_columns. intros Hin.
  apply in_map_iff in Hin as (m & <- & Hm). unfold relabel.
  destruct (String.eqb m col0); [reflexivity|].
  now apply names_lowercase in Hm.
Qed.

Section SecondRun.

Variables s1 c1 : string.
Variable names2 : list string.

Hypothesis Hidem : forall n, In n names2 -> strip_lower n = n.
Hypothesis Hlower :
  forall n, In n names2 -> n <> "Date" /\ n <> "Sales" /\ n <> "Category".
Hypothesis Hs1 : In s1 names2.
Hypothesis Hc1 : In c1 names2.
Hypothesis Hs1_date : s1 <> "date".
Hypothesis Hc1_date : c1 <> "date".

(** What the loop makes of a name of the second pass, and how the name
    reads once trimmed and lower-cased again. *)
Lemma loop_name_cases (n : string) :
  In n names2 ->
  (n = "date" /\ loop_name s1 c1 n = "Date") \/
  (n = s1 /\ loop_name s1 c1 n = "Sales") \/
  (n = c1 /\ n <> s1 /\ loop_name s1 c1 n = "Category") \/
  (n <> "date" /\ n <> s1 /\ n <> c1 /\ loop_name s1 c1 n = n).
Proof.
  intros Hn. unfold loop_name.
  destruct (Hlower _ Hs1) as (Hs1D & _).
  destruct (Hlower _ Hc1) as (Hc1D & Hc1S & _).
  destruct (String.eqb_spec n "date") as [->|Hnd].
  - left. split; [reflexivity|].
    rewrite relabel_eq, (relabel_neq s1), (relabel_neq c1);
      [reflexivity | congruence | congruence].
  - right. rewrite (relabel_neq "date") by exact Hnd.
    destruct (String.eqb_spec n s1) as [->|Hns].
    + left. split; [reflexivity|].
      rewrite relabel_eq, (relabel_neq c1); [reflexivity | congruence].
    + right. rewrite (relabel_neq s1) by exact Hns.
      destruct (String.eqb_spec n c1) as [->|Hnc].
      * left. repeat split; [exact Hns | apply relabel_eq].
      * right. repeat split; auto. now apply relabel_neq.
Qed.

Lemma loop_name_keeps_miss (key : string) (n : string) :
  Py.contains key "date" = false \/ key = "date" ->
  Py.contains key "sales" = false \/ key = "sales" ->
  Py.contains key "category" = false \/ key = "category" ->
  (key = "date" -> Py.contains key "date" = true) ->
  (key = "sales" -> Py.contains key s1 = true) ->
  (key = "category" -> Py.contains key c1 = true) ->
  In n names2 ->
  Py.contains key n = false ->
  Py.contains key (strip_lower (loop_name s1 c1 n)) = false.
Proof.
  intros Kd Ks Kc Hd Hs Hc Hn Hmiss.
  destruct (loop_name_cases n Hn)
    as [[-> ->] | [[-> ->] | [(-> & _ & ->) | (_ & _ & _ & ->)]]].
  - destruct Kd as [Kd | ->]; [exact Kd|]. rewrite Hd in Hmiss; congruence.
  - destruct Ks as [Ks | ->]; [exact Ks|]. rewrite Hs in Hmiss; congruence.
  - destruct Kc as [Kc | ->]; [exact Kc|]. rewrite Hc in Hmiss; congruence.
  - now rewrite Hidem.
Qed.

End SecondRun.

Lemma loop_name_date (s1 c1 : string) :
  s1 <> "Date" -> c1 <> "Date" -> loop_name s1 c1 "date" = "Date".
Proof.
  intros Hs Hc. unfold loop_name.
  rewrite relabel_eq, (relabel_neq s1), (relabel_neq c1);
    [reflexivity | congruence | congruence].
Qed.

Lemma loop_name_sales (s1 c1 : string) :
  s1 <> "date" -> c1 <> "Sales" -> loop_name s1 c1 s1 = "Sales".
Proof.
  intros Hs Hc. unfold loop_name.
  rewrite (relabel_neq "date"), relabel_eq, (relabel_neq c1);
    [reflexivity | congruence | exact Hs].
Qed.

Lemma loop_name_category (s1 c1 : string) :
  c1 <> "date" -> c1 <> s1 -> loop_name s1 c1 c1 = "Category".
Proof.
  intros Hc Hcs. unfold loop_name.
  rewrite (relabel_neq "date"), (relabel_neq s1), relabel_eq;
    [reflexivity | exact Hcs | exact Hc].
Qed.

Lemma columns_loop (d1 s1 c1 : string) (df : DataFrame) :
  d1 = "date" ->
  columns (rename c1 "Category" (rename s1 "Sales" (rename d1 "Date" df)))
  = map (loop_name s1 c1) (columns df).
Proof.
  intros ->. rewrite !columns_rename, !map_map. now apply map_ext.
Qed.

Section Idempotence.

Variable to_datetime : Series -> option Series.

(** [pd.to_datetime] gives converted dates back as they are. *)
Hypothesis to_datetime_fixed :
  forall col col', to_datetime col = Some col' -> to_datetime col' = Some col'.

Lemma normalize_again (df df1 : DataFrame) (tr : list event) :
  normalize to_datetime (Some df) = (tr, Done df1) ->
  In "Category" (columns df1) ->
  NoDup (names_of df1) ->
  normalize to_datetime (Some df1) = ([], Done df1).
Proof.
  intros Hrun Hcat Hnd.
  destruct (normalize_Done_date_column _ _ _ _ Hrun)
    as (i & data0 & data0' & D & _ & _ & _ & HtD & HiD & _ & Honly).
  apply to_datetime_fixed in HtD.
  destruct (normalize_Done _ _ _ _ Hrun)
    as (col0 & cols & data & data1 & d1 & s1 & c1 & data' & data2 &
        Hm & _ & _ & Hd1 & Hs1 & Hc1 & _ & _ & Hdf1 & _).
  set (df2 := second_pass_frame col0 data1 df) in *.
  set (names2 := columns df2).
  (* the first run, name by name *)
  assert (Hd : d1 = "date").
  { unfold matching in Hm, Hd1. rewrite columns_standardize in Hm.
    unfold df2 in Hd1.
    rewrite second_pass_columns, (second_pass_date_head _ _ _ Hm) in Hd1.
    congruence. }
  subst d1.
  destruct (matching_head_In _ _ _ Hd1) as [Hd1in _].
  destruct (matching_head_In _ _ _ Hs1) as [Hs1in Hs1c].
  destruct (matching_head_In _ _ _ Hc1) as [Hc1in Hc1c].
  unfold matching in Hd1, Hs1, Hc1.
  fold names2 in Hd1, Hs1, Hc1, Hd1in, Hs1in, Hc1in.
  assert (Hidem : forall n, In n names2 -> strip_lower n = n)
    by (intros n; apply second_pass_idem).
  assert (Hlower : forall n, In n names2 ->
                     n <> "Date" /\ n <> "Sales" /\ n <> "Category")
    by (intros n; apply second_pass_lowercase).
  assert (Hs1_date : s1 <> "date") by (intros ->; discriminate).
  assert (Hc1_date : c1 <> "date") by (intros ->; discriminate).
  destruct (Hlower _ Hs1in) as (Hs1D & _).
  destruct (Hlower _ Hc1in) as (Hc1D & Hc1S & _).
  assert (HL : columns df1 = map (loop_name s1 c1) names2).
  { rewrite Hdf1, columns_setitem. now apply columns_loop. }
  set (f := fun n => strip_lower (loop_name s1 c1 n)).
  assert (HN : names_of df1 = map f names2).
  { unfold names_of. now rewrite HL, map_map. }
  assert (Hcs : c1 <> s1).
  { rewrite HL in Hcat. apply in_map_iff in Hcat as (n & Hn & Hin).
    destruct (loop_name_cases s1 c1 names2 Hlower Hs1in Hc1in n Hin)
      as [[_ H] | [[_ H] | [(-> & H & _) | (_ & _ & _ & H)]]];
      try congruence.
    rewrite H in Hn. subst n. apply Hlower in Hin. tauto. }
  assert (Hfd : f "date" = "date")
    by (unfold f; now rewrite loop_name_date).
  assert (Hfs : f s1 = "sales")
    by (unfold f; now rewrite loop_name_sales).
  assert (Hfc : f c1 = "category")
    by (unfold f; now rewrite loop_name_category).
  (* the names the second run starts from *)
  assert (Hkeep : forall key,
            key = "date" \/ key = "sales" \/ key = "category" ->
            forall n, In n names2 -> Py.contains key n = false ->
              Py.contains key (f n) = false).
  { intros key Hkey n Hn Hmiss.
    apply (loop_name_keeps_miss s1 c1 names2); auto;
      destruct Hkey as [-> | [-> | ->]];
      try (left; reflexivity); try (right; reflexivity);
      intros; try discriminate; auto. }
  assert (HhdD : hd_error (filter (Py.contains "date") (names_of df1))
                 = Some "date").
  { pose proof (head_filter_map (Py.contains "date") f names2 "date" Hd1
                  (Hkeep "date" (or_introl eq_refl))) as H.
    rewrite Hfd in H. rewrite HN. now apply H. }
  assert (HhdS : hd_error (filter (Py.contains "sales") (names_of df1))
                 = Some "sales").
  { pose proof (head_filter_map (Py.contains "sales") f names2 s1 Hs1
                  (Hkeep "sales" (or_intror (or_introl eq_refl)))) as H.
    rewrite Hfs in H. rewrite HN. now apply H. }
  assert (HhdC : hd_error (filter (Py.contains "category") (names_of df1))
                 = Some "category").
  { pose proof (head_filter_map (Py.contains "category") f names2 c1 Hc1
                  (Hkeep "category" (or_intror (or_intror eq_refl)))) as H.
    rewrite Hfc in H. rewrite HN. now apply H. }
  (* the date column of the normalized table *)
  pose proof (NoDup_same_position _ Hnd) as Hidx.
  assert (HNi : nth_error (names_of df1) i = Some "date").
  { unfold names_of, columns. now rewrite !nth_error_map, HiD. }
  assert (Huniq : forall j, nth_error (columns df1) j = Some "Date" -> j = i).
  { intros j Hj. destruct (Nat.eq_dec j i) as [|Hne]; [assumption|].
    now destruct (Honly j Hne). }
  assert (Hstd1 : nth_error (standardize_columns df1) i = Some ("date", D)).
  { unfold standardize_columns. now rewrite nth_error_map, HiD. }
  assert (Hg1 : getitem "date" (standardize_columns df1) = [D]).
  { apply (getitem_unique_label _ _ i); [|exact Hstd1].
    rewrite columns_standardize. intros j Hj. eapply Hidx; eauto. }
  destruct (filter (Py.contains "date") (names_of df1)) as [|x cols1] eqn:Hf1;
    [discriminate|].
  cbn [hd_error] in HhdD. injection HhdD as ->.
  assert (Hm1 : matching "date" (standardize_columns df1) = "date" :: cols1)
    by (unfold matching; now rewrite columns_standardize).
  set (dfA' := rename "date" "Date" (standardize_columns df1)).
  set (df2' := second_pass_frame "date" D df1).
  set (df3' := rename "category" "Category"
                 (rename "sales" "Sales" (rename "date" "Date" df2'))).
  assert (Hcols2' : columns df2' = names_of df1).
  { unfold df2'. rewrite second_pass_columns.
    rewrite (map_ext _ (fun n => n)) by apply relabel_same. apply map_id. }
  assert (HB : map (loop_name "sales" "category") (names_of df1) = columns df1).
  { rewrite HN, HL, map_map. apply map_ext_in. intros n Hn.
    assert (Hnd' : NoDup (map f names2)) by (now rewrite <- HN).
    destruct (loop_name_cases s1 c1 names2 Hlower Hs1in Hc1in n Hn)
      as [[_ H] | [[_ H] | [(_ & _ & H) | (Hn1 & Hn2 & Hn3 & H)]]];
      unfold f; rewrite H; try reflexivity.
    rewrite (Hidem n Hn). unfold loop_name.
    assert (Hfn : f n = n) by (unfold f; now rewrite H, Hidem).
    rewrite (relabel_neq "date"), (relabel_neq "sales"),
      (relabel_neq "category"); auto.
    - intros ->. apply Hn3.
      apply (NoDup_map_injective f names2); auto. congruence.
    - intros ->. apply Hn2.
      apply (NoDup_map_injective f names2); auto. congruence. }
  assert (Hcols3' : columns df3' = columns df1).
  { unfold df3'. rewrite columns_loop by reflexivity. now rewrite Hcols2'. }
  assert (HdA' : nth_error dfA' i = Some ("Date", D)).
  { unfold dfA', rename. now rewrite nth_error_map, Hstd1. }
  assert (Hdata3' : map snd df3' = map snd (setitem "Date" D dfA')).
  { unfold df3', df2'. now rewrite !data_rename, second_pass_data. }
  assert (Hd3' : nth_error df3' i = Some ("Date", D)).
  { apply nth_error_frame.
    - rewrite Hcols3'. unfold columns. now rewrite nth_error_map, HiD.
    - now rewrite Hdata3', nth_error_map, (setitem_at _ _ _ _ _ HdA'). }
  assert (Hg3' : getitem "Date" df3' = [D]).
  { apply (getitem_unique_label _ _ i); [|exact Hd3'].
    now rewrite Hcols3'. }
  assert (Hrun2 : normalize to_datetime (Some df1)
                  = ([], Done (setitem "Date" D df3'))).
  { apply (normalize_run to_datetime df1 "date" "date" "sales" "category"
             cols1 D D D D); auto;
      unfold matching; fold df2'; rewrite Hcols2'; auto.
    now rewrite Hf1. }
  rewrite Hrun2. do 2 f_equal.
  apply frame_ext.
  - now rewrite columns_setitem.
  - apply nth_error_ext. intros j.
    destruct (Nat.eq_dec j i) as [->|Hne].
    + now rewrite !nth_error_map, (setitem_at _ _ _ _ _ Hd3'), HiD.
    + assert (H3 : nth_error (columns df3') j <> Some "Date").
      { rewrite Hcols3'. intros H. now apply Hne, Huniq. }
      assert (HA : nth_error (columns dfA') j <> Some "Date").
      { unfold dfA'.
        rewrite columns_rename, columns_standardize, nth_error_map.
        destruct (nth_error (names_of df1) j) as [n|] eqn:Hn; [|discriminate].
        cbn [option_map]. intros H. injection H as H. unfold relabel in H.
        destruct (String.eqb_spec n "date") as [->|_].
        - apply Hne. eapply Hidx; eauto.
        - apply nth_error_In, names_lowercase in Hn. tauto. }
      rewrite (setitem_other _ _ _ _ H3), Hdata3', (setitem_other _ _ _ _ HA).
      unfold dfA'. now rewrite data_rename, data_standardize.
Qed.

End Idempotence.

Lemma iso_to_datetime_fixed (col col' : Series) :
  iso_to_datetime col = Some col' -> iso_to_datetime col' = Some col'.
Proof.
  revert col'. induction col as [|v col IH]; simpl; intros col' H.
  - injection H as <-. reflexivity.
  - destruct (iso_cell v) as [v'|] eqn:Hv; [|discriminate].
    destruct (iso_to_datetime col) as [col''|]; [|discriminate].
    injection H as <-. simpl. rewrite (IH col'' eq_refl).
    destruct v as [z|s|t|]; simpl in Hv; try discriminate.
    + destruct (parse_iso s); [|discriminate]. injection Hv as <-. reflexivity.
    + injection Hv as <-. reflexivity.
Qed.

Example net_sales_runs :
  normalize iso_to_datetime (Some net_sales_frame) = ([], Done net_sales_normalized) /\
  columns net_sales_normalized = ["Date"; "Sales"; "sales"; "Category"] /\
  option_map columns
    (match outcome (normalize iso_to_datetime (Some net_sales_normalized)) with
     | Done df2 => Some df2
     | _ => None
     end)
  = Some ["Date"; "Sales"; "Sales"; "Category"].
Proof. repeat split; reflexivity. Qed.

(** The loop of lines 107-113 works from lists made before it starts: when
    the first column containing "category" is the one just renamed to
    Sales, the last renaming finds nothing and no Category column is made,
    although a column called "category" is there.  A second run makes it. *)
Example sales_category_runs :
  exists df1 df2,
    normalize iso_to_datetime (Some sales_category_frame) = ([], Done df1) /\
    columns df1 = ["Date"; "Sales"; "category"] /\
    normalize iso_to_datetime (Some df1) = ([], Done df2) /\
    columns df2 = ["Date"; "Sales"; "Category"].
Proof.
  exists [ ("Date", timestamps3); ("Sales", units3); ("category", labels3) ],
         [ ("Date", timestamps3); ("Sales", units3); ("Category", labels3) ].
  repeat split; reflexivity.
Qed.

(** C3, as stated, fails: with the columns "Date", "Net Sales", "Sales"
    and "Category" the first run renames "Net Sales" to Sales and leaves
    "sales"; the second run finds two columns reading "sales" and renames
    both. *)
Lemma net_sales_not_idempotent :
  ~ idempotent_on iso_to_datetime net_sales_frame.
Proof.
  intros H. specialize (H net_sales_normalized eq_refl).
  vm_compute in H. discriminate.
Qed.

(** C3, amended.  Given that [pd.to_datetime] returns converted dates as
    they are: for every input table on which normalization succeeds and
    yields a table that has a Category column and whose column names are
    still pairwise distinct once trimmed and lower-cased, normalizing the
    normalized table again yields the same table. *)
Theorem normalize_idempotent (to_datetime : Series -> option Series)
    (df : DataFrame) :
  (forall col col', to_datetime col = Some col' -> to_datetime col' = Some col') ->
  (forall df1, outcome (normalize to_datetime (Some df)) = Done df1 ->
               In "Category" (columns df1) /\ NoDup (names_of df1)) ->
  idempotent_on to_datetime df.
Proof.
  intros Hfixed Hgood df1 Hrun.
  destruct (Hgood df1 Hrun) as [Hcat Hnd].
  destruct (normalize to_datetime (Some df)) as [tr r] eqn:Hn.
  unfold outcome, snd in Hrun. subst r.
  now rewrite (normalize_again to_datetime Hfixed df df1 tr Hn Hcat Hnd).
Qed.

Lemma normalize_idempotent_witness :
  normalize iso_to_datetime (Some plain_frame) = ([], Done plain_normalized) /\
  idempotent_on iso_to_datetime plain_frame.
Proof.
  split; [reflexivity|].
  apply (normalize_idempotent iso_to_datetime plain_frame iso_to_datetime_fixed).
  intros df1 Hrun.
  change (Done plain_normalized = Done df1) in Hrun. injection Hrun as <-.
  split.
  - simpl. auto.
  - change (names_of plain_normalized)
      with ["date"; "category"; "sales"; "store"].
    repeat (constructor; [simpl; intuition discriminate|]). constructor.
Defined.


(** * Further properties of the script *)

(** ** Input acquisition (lines 36-79) *)

(** Acquisition says nothing in two cases only: the database box is ticked
    and Connect was not pressed, or a file was chosen that [pd.read_csv]
    cannot parse.  Every other path shows one sidebar message. *)
Theorem acquisition_silent_iff (w : widgets) :
  trace (load_sales_data w) = [] <->
  (use_db w = true /\ connect w = false) \/
  (use_db w = false /\ uploaded_file w = Some None).
Proof.
  unfold load_sales_data.
  destruct (use_db w), (connect w); simpl.
  - destruct (database w) as [[|row rows]|e]; simpl;
      (split; [discriminate | intros [[_ H] | [H _]]; discriminate]).
  - split; [auto | reflexivity].
  - destruct (uploaded_file w) as [[df|]|]; simpl.
    + split; [discriminate | intros [[H _] | [_ H]]; discriminate].
    + split; [auto | reflexivity].
    + split; [discriminate | intros [[H _] | [_ H]]; discriminate].
  - destruct (uploaded_file w) as [[df|]|]; simpl.
    + split; [discriminate | intros [[H _] | [_ H]]; discriminate].
    + split; [auto | reflexivity].
    + split; [discriminate | intros [[H _] | [_ H]]; discriminate].
Qed.

(** With the database box ticked the file chooser is never looked at: the
    same run results whatever file is or is not uploaded. *)
Theorem upload_ignored_with_database (w : widgets)
    (file : option (option DataFrame)) :
  use_db w = true ->
  load_sales_data (with_upload file w) = load_sales_data w.
Proof.
  intros Hdb. unfold load_sales_data, with_upload. simpl. now rewrite Hdb.
Qed.

Lemma upload_ignored_with_database_witness :
  load_sales_data (with_upload (Some (Some plain_frame)) (db_ticked None))
  = ([], Done None).
Proof.
  rewrite (upload_ignored_with_database (db_ticked None)
             (Some (Some plain_frame)) eq_refl).
  reflexivity.
Defined.

(** A query that returns no row does not stop the run: the warning is
    shown and the empty table with the columns Date, Category and Sales goes
    through normalization unchanged, given that [pd.to_datetime] converts
    the empty column to the empty column. *)
Theorem empty_result_proceeds (to_datetime : Series -> option Series)
    (w : widgets) :
  to_datetime [] = Some [] ->
  use_db w = true -> connect w = true -> database w = db_rows [] ->
  ingest to_datetime w
  = ([ sidebar_warning "⚠️ No data found in the table!";
       st_write_frame "Fetched Data Preview:" empty_canonical ],
     Done empty_canonical).
Proof.
  intros Hnil Hdb Hconn Hrows.
  assert (Hrun : normalize to_datetime (Some empty_canonical)
                 = ([], Done empty_canonical)).
  { apply (normalize_run to_datetime empty_canonical "date" "date" "sales"
             "category" [] [] [] [] []); auto. }
  assert (Hload : load_sales_data w
                  = ([sidebar_warning "⚠️ No data found in the table!"],
                     Done (Some empty_canonical))).
  { unfold load_sales_data. rewrite Hdb, Hconn, Hrows. reflexivity. }
  unfold ingest. rewrite Hload. unfold bind at 1. rewrite Hrun. reflexivity.
Qed.

Lemma empty_result_proceeds_witness :
  outcome (ingest iso_to_datetime
             (mkWidgets None true true (db_rows []) all_checked 30))
  = Done empty_canonical.
Proof.
  rewrite (empty_result_proceeds iso_to_datetime
             (mkWidgets None true true (db_rows []) all_checked 30)
             eq_refl eq_refl eq_refl eq_refl).
  reflexivity.
Defined.

(** ** Column names (lines 83 and 98) *)

(** Trimming and lower-casing the column names a second time changes
    nothing. *)
Theorem standardize_columns_idem (df : DataFrame) :
  standardize_columns (standardize_columns df) = standardize_columns df.
Proof.
  unfold standardize_columns. rewrite map_map. apply map_ext.
  intros [n d]. simpl. now rewrite strip_lower_idem.
Qed.

Lemma prefix_app (a b : string) :
  prefix a b = true <-> exists post, b = a ++ post.
Proof.
  revert b. induction a as [|c a IH]; intros b.
  - split; [intros _; now exists b | intros _; now destruct b].
  - destruct b as [|c' b]; cbn [prefix append].
    + split; [discriminate | intros (post & H); discriminate].
    + destruct (ascii_dec c c') as [<-|Hne].
      * split.
        -- intros H. apply IH in H as (post & ->). now exists post.
        -- intros (post & H). injection H as ->. apply IH. now exists post.
      * split; [discriminate|]. intros (post & H). congruence.
Qed.

(** The test [key in col] of lines 86 and 102-104 holds exactly when the
    name reads: something, then the key, then something. *)
Theorem contains_substring (sub s : string) :
  Py.contains sub s = true <-> exists pre post, s = pre ++ sub ++ post.
Proof.
  split.
  - induction s as [|c s IH]; cbn [Py.contains]; intros H;
      apply orb_prop in H as [H | H].
    + apply prefix_app in H as (post & H). now exists "", post.
    + discriminate.
    + apply prefix_app in H as (post & H). now exists "", post.
    + destruct (IH H) as (pre & post & ->). now exists (String c pre), post.
  - intros (pre & post & ->). induction pre as [|c pre IH].
    + cbn [append].
      assert (H : prefix sub (sub ++ post) = true)
        by (apply prefix_app; now exists post).
      destruct (sub ++ post); cbn [Py.contains]; rewrite H; reflexivity.
    + cbn [append Py.contains]. rewrite IH. apply orb_true_r.
Qed.

Lemma lstrip_split (s : string) :
  exists pre, s = pre ++ Py.lstrip s /\ all_blank pre = true.
Proof.
  induction s as [|c s (pre & Hs & Hpre)]; simpl.
  - now exists "".
  - destruct (Py.isspace c) eqn:Hc.
    + exists (String c pre). simpl. rewrite Hc, Hpre.
      split; [congruence | reflexivity].
    + now exists "".
Qed.

Lemma rstrip_split (s : string) :
  exists post, s = Py.rstrip s ++ post /\ all_blank post = true /\
               ends_clean (Py.rstrip s) = true.
Proof.
  induction s as [|c s (post & Hs & Hpost & Hend)]; cbn [Py.rstrip].
  - now exists "".
  - destruct (Py.rstrip s) as [|c' r] eqn:Hr.
    + simpl in Hs. subst s. destruct (Py.isspace c) eqn:Hc.
      * exists (String c post). simpl. now rewrite Hc, Hpost.
      * exists post. simpl. now rewrite Hc.
    + exists post. simpl in *. split; [congruence|]. auto.
Qed.

(** [str.strip] of line 83 removes blanks from the two ends and nothing
    else: the name is blanks, then the stripped name, then blanks, and the
    stripped name neither begins nor ends with a blank. *)
Theorem strip_spec (s : string) :
  exists pre post,
    s = pre ++ Py.strip s ++ post /\
    all_blank pre = true /\ all_blank post = true /\
    starts_clean (Py.strip s) = true /\ ends_clean (Py.strip s) = true.
Proof.
  unfold Py.strip.
  destruct (lstrip_split s) as (pre & Hs & Hpre).
  destruct (rstrip_split (Py.lstrip s)) as (post & Ht & Hpost & Hend).
  exists pre, post. repeat split; auto.
  - now rewrite <- Ht.
  - apply rstrip_clean, lstrip_clean.
Qed.

(** ** The ways normalization can end (lines 83-116) *)

Lemma getitem_nonempty (name : string) (df : DataFrame) :
  In name (columns df) -> getitem name df <> [].
Proof.
  unfold columns, getitem. intros Hin.
  apply in_map_iff in Hin as ([n d] & Hn & Hin). simpl in Hn. subst n.
  intros Hnil.
  assert (H : In d (map snd (filter (fun c => String.eqb (fst c) name) df))).
  { apply in_map_iff. exists (name, d). split; [reflexivity|].
    apply filter_In. split; [assumption | apply String.eqb_refl]. }
  now rewrite Hnil in H.
Qed.

Lemma second_pass_length (col0 : string) (data : Series) (df : DataFrame) :
  List.length (second_pass_frame col0 data df) = List.length df.
Proof.
  unfold second_pass_frame, standardize_columns, setitem, rename.
  now rewrite !length_map.
Qed.

Lemma rename_length (old new : string) (df : DataFrame) :
  List.length (rename old new df) = List.length df.
Proof. apply length_map. Qed.

Section Endings.

Variable to_datetime : Series -> option Series.

(** The second conversion finds a column labelled Date. *)
Lemma loop_frame_has_Date (col0 s1 c1 : string) (data : Series) (df : DataFrame) :
  In col0 (names_of df) ->
  hd_error (matching "sales" (second_pass_frame col0 data df)) = Some s1 ->
  hd_error (matching "category" (second_pass_frame col0 data df)) = Some c1 ->
  In "Date"
     (columns (rename c1 "Category"
                 (rename s1 "Sales"
                    (rename "date" "Date" (second_pass_frame col0 data df))))).
Proof.
  intros Hcol Hs Hc.
  apply matching_head_In in Hs as [Hs _]. apply matching_head_In in Hc as [Hc _].
  apply second_pass_lowercase in Hs as (Hs & _).
  apply second_pass_lowercase in Hc as (Hc & _).
  rewrite columns_loop by reflexivity. rewrite second_pass_columns.
  apply in_map_iff. exists "date". split; [now apply loop_name_date|].
  apply in_map_iff. exists col0. split; [apply relabel_eq | exact Hcol].
Qed.

(** Every run of the normalizer on a table ends in one of four ways. *)
Lemma normalize_cases (df : DataFrame) :
  (filter (Py.contains "date") (names_of df) = [] /\
   normalize to_datetime (Some df) = stop_missing "date" (standardize_columns df))
  \/
  (exists col0 cols,
     filter (Py.contains "date") (names_of df) = col0 :: cols /\
     (normalize to_datetime (Some df) = ([], Raised ValueError) \/
      (exists frame key,
         (key = "sales" \/ key = "category") /\
         List.length frame = List.length df /\
         normalize to_datetime (Some df) = stop_missing key frame) \/
      (exists df', normalize to_datetime (Some df) = ([], Done df')))).
Proof.
  destruct (filter (Py.contains "date") (names_of df)) as [|col0 cols] eqn:Hf.
  - left. split; [reflexivity|]. apply normalize_no_date.
    unfold matching. now rewrite columns_standardize.
  - right. exists col0, cols. split; [reflexivity|].
    assert (Hm : matching "date" (standardize_columns df) = col0 :: cols)
      by (unfold matching; now rewrite columns_standardize).
    assert (Hin : In col0 (names_of df)).
    { assert (H : In col0 (filter (Py.contains "date") (names_of df)))
        by (rewrite Hf; now left).
      now apply filter_In in H. }
    destruct (getitem col0 (standardize_columns df)) as [|data [|other more]] eqn:Hg.
    + exfalso. apply (getitem_nonempty col0 (standardize_columns df)); auto.
      now rewrite columns_standardize.
    + destruct (to_datetime data) as [data1|] eqn:Ht.
      * rewrite (normalize_first_pass _ _ _ _ _ _ Hm Hg Ht), rename_loop_column_map.
        set (df2 := second_pass_frame col0 data1 df).
        pose proof (second_pass_date_head _ _ _ Hf) as Hhd.
        rewrite <- (second_pass_columns col0 data1 df) in Hhd. fold df2 in Hhd.
        destruct (matching "date" df2) as [|d1 ?] eqn:Hd;
          unfold matching in Hd; rewrite Hd in Hhd; [discriminate|].
        injection Hhd as ->.
        destruct (matching "sales" df2) as [|s1 ?] eqn:Hs.
        { right. left. exists (rename "date" "Date" df2), "sales".
          split; [left; reflexivity|].
          split; [rewrite rename_length; apply second_pass_length | reflexivity]. }
        destruct (matching "category" df2) as [|c1 ?] eqn:Hc.
        { right. left.
          exists (rename s1 "Sales" (rename "date" "Date" df2)), "category".
          split; [right; reflexivity|].
          split; [rewrite !rename_length; apply second_pass_length | reflexivity]. }
        cbn [bind ret]. unfold convert_date.
        set (df3 := rename c1 "Category" (rename s1 "Sales" (rename "date" "Date" df2))).
        destruct (getitem "Date" df3) as [|d [|? ?]] eqn:Hg3.
        -- exfalso. apply (getitem_nonempty "Date" df3); [|exact Hg3].
           apply loop_frame_has_Date;
             [exact Hin | fold df2; now rewrite Hs | fold df2; now rewrite Hc].
        -- destruct (to_datetime d);
             [right; right; eexists; reflexivity | left; reflexivity].
        -- left. reflexivity.
      * left. unfold normalize. rewrite Hm. unfold convert_date.
        rewrite getitem_rename_fresh by apply Date_fresh.
        now rewrite Hg, Ht.
    + left. unfold normalize. rewrite Hm. unfold convert_date.
      rewrite getitem_rename_fresh by apply Date_fresh.
      now rewrite Hg.
Qed.

End Endings.

(** When normalization stops the run it has shown exactly two things: the
    message naming one of the three fields, and a list with one name per
    column of the table. *)
Theorem normalize_stop_shape (to_datetime : Series -> option Series)
    (df : DataFrame) (tr : list event) :
  normalize to_datetime (Some df) = (tr, Stopped) ->
  exists key cols,
    In key fields /\
    tr = [missing_message key; st_write_list "Available Columns:" cols] /\
    List.length cols = List.length df.
Proof.
  intros Hrun.
  destruct (normalize_cases to_datetime df)
    as [[_ H] | (col0 & cols & _ & [H | [(frame & key & Hkey & Hlen & H) | (df' & H)]])];
    rewrite H in Hrun; try discriminate.
  - injection Hrun as <-. exists "date", (columns (standardize_columns df)).
    repeat split; [simpl; auto|].
    unfold columns, standardize_columns. now rewrite !length_map.
  - injection Hrun as <-. exists key, (columns frame).
    repeat split.
    + destruct Hkey as [-> | ->]; simpl; auto.
    + unfold columns. now rewrite length_map.
Qed.

Lemma normalize_stop_shape_witness :
  exists key cols,
    In key fields /\
    fst (normalize iso_to_datetime (Some no_sales_frame))
    = [missing_message key; st_write_list "Available Columns:" cols] /\
    List.length cols = 2.
Proof.
  destruct (normalize_stop_shape iso_to_datetime no_sales_frame
              [ st_error "❌ No column related to 'Sales' found.";
                st_write_list "Available Columns:" ["Date"; "category"] ]
              eq_refl) as (key & cols & Hkey & Htr & Hlen).
  exists key, cols. repeat split; assumption.
Defined.

(** The only exception normalization lets through on a table is the one
    of [pd.to_datetime]; it comes before anything is shown.  In particular
    the look-ups [sales_data["Date"]] of lines 89 and 116 always find the
    label. *)
Theorem normalize_raise_shape (to_datetime : Series -> option Series)
    (df : DataFrame) (tr : list event) (e : exn) :
  normalize to_datetime (Some df) = (tr, Raised e) ->
  tr = [] /\ e = ValueError.
Proof.
  intros Hrun.
  destruct (normalize_cases to_datetime df)
    as [[_ H] | (col0 & cols & _ & [H | [(frame & key & Hkey & Hlen & H) | (df' & H)]])];
    rewrite H in Hrun; try discriminate.
  injection Hrun as <- <-. auto.
Qed.

Lemma normalize_raise_shape_witness :
  normalize iso_to_datetime (Some bad_dates_frame) = ([], Raised ValueError).
Proof.
  assert (H : normalize iso_to_datetime (Some bad_dates_frame)
              = ([], Raised ValueError)) by reflexivity.
  destruct (normalize_raise_shape iso_to_datetime bad_dates_frame _ _ H)
    as [_ _].
  exact H.
Defined.

(** The run stops on "No column related to 'Date' found" exactly when no
    column name contains "date": once line 86 has found a date column, the
    loop of line 107 finds one too, and its own message for Date is never
    shown. *)
Theorem date_reported_iff (to_datetime : Series -> option Series)
    (df : DataFrame) :
  In (missing_message "date") (trace (normalize to_datetime (Some df))) <->
  first_match "date" (names_of df) = None.
Proof.
  pose proof (first_match_spec "date" (names_of df)) as Hspec.
  destruct (normalize_cases to_datetime df)
    as [[Hf H] | (col0 & cols & Hf & [H | [(frame & key & Hkey & Hlen & H) | (df' & H)]])];
    rewrite H; unfold trace, fst.
  - split.
    + intros _. destruct (first_match "date" (names_of df)) as [k|]; [|reflexivity].
      destruct Hspec as (n & _ & _ & Hhd & _). rewrite Hf in Hhd. discriminate.
    + intros _. simpl. auto.
  - split; [intros [] |]. intros Hnone. rewrite Hnone in Hspec. congruence.
  - split.
    + unfold stop_missing. cbn [fst]. intros [Hin | [Hin | []]].
      * destruct Hkey as [-> | ->]; vm_compute in Hin; discriminate.
      * discriminate.
    + intros Hnone. rewrite Hnone in Hspec. congruence.
  - split; [intros [] |]. intros Hnone. rewrite Hnone in Hspec. congruence.
Qed.

(** Two columns whose names are the same once trimmed and lower-cased, the
    first of them being the first column containing "date", end the run:
    both are renamed to Date and [pd.to_datetime] is handed a frame, which
    it refuses.  Nothing is shown. *)
Theorem duplicate_date_name_raises (to_datetime : Series -> option Series)
    (df : DataFrame) (i j : nat) (n : string) :
  first_match "date" (names_of df) = Some i ->
  nth_error (names_of df) i = Some n ->
  nth_error (names_of df) j = Some n ->
  j <> i ->
  normalize to_datetime (Some df) = ([], Raised ValueError).
Proof.
  intros Hfm Hi Hj Hne.
  pose proof (first_match_spec "date" (names_of df)) as Hspec.
  rewrite Hfm in Hspec. destruct Hspec as (n' & Hn' & _ & Hhd & _).
  rewrite Hi in Hn'. injection Hn' as <-.
  destruct (filter (Py.contains "date") (names_of df)) as [|x cols] eqn:Hf;
    [discriminate|].
  injection Hhd as ->.
  unfold normalize, matching. rewrite columns_standardize, Hf.
  unfold convert_date. rewrite getitem_rename_fresh by apply Date_fresh.
  destruct (getitem n (standardize_columns df)) as [|a [|b l]] eqn:Hg.
  - exfalso. apply (getitem_nonempty n (standardize_columns df)); auto.
    rewrite columns_standardize. eapply nth_error_In; eauto.
  - exfalso. apply Hne.
    apply (getitem_single_position _ _ _ Hg); now rewrite columns_standardize.
  - reflexivity.
Qed.

Lemma duplicate_date_name_raises_witness :
  names_of two_dates_frame = ["date"; "date"; "sales"; "category"] /\
  normalize iso_to_datetime (Some two_dates_frame) = ([], Raised ValueError).
Proof.
  split; [reflexivity|].
  apply (duplicate_date_name_raises iso_to_datetime two_dates_frame 0 1 "date");
    [reflexivity | reflexivity | reflexivity | discriminate].
Defined.

(** A date column that [pd.to_datetime] cannot convert ends the run with
    its exception at line 89, before the sales and category columns are
    looked for and without any message. *)
Theorem unconvertible_date_raises (to_datetime : Series -> option Series)
    (df : DataFrame) (i : nat) (data : Series) :
  first_match "date" (names_of df) = Some i ->
  (forall j, nth_error (names_of df) j = nth_error (names_of df) i -> j = i) ->
  nth_error (map snd df) i = Some data ->
  to_datetime data = None ->
  normalize to_datetime (Some df) = ([], Raised ValueError).
Proof.
  intros Hfm Honly Hdata Hnone.
  pose proof (first_match_spec "date" (names_of df)) as Hspec.
  rewrite Hfm in Hspec. destruct Hspec as (n & Hn & _ & Hhd & _).
  destruct (filter (Py.contains "date") (names_of df)) as [|x cols] eqn:Hf;
    [discriminate|].
  injection Hhd as ->.
  assert (Hg : getitem n (standardize_columns df) = [data]).
  { apply (getitem_unique_label _ _ i).
    - rewrite columns_standardize. intros j Hj. apply Honly. congruence.
    - apply nth_error_frame; [now rewrite columns_standardize|].
      now rewrite data_standardize. }
  unfold normalize, matching. rewrite columns_standardize, Hf.
  unfold convert_date. rewrite getitem_rename_fresh by apply Date_fresh.
  now rewrite Hg, Hnone.
Qed.

Lemma unconvertible_date_raises_witness :
  first_match "sales" (names_of bad_dates_frame) = None /\
  normalize iso_to_datetime (Some bad_dates_frame) = ([], Raised ValueError).
Proof.
  split; [reflexivity|].
  apply (unconvertible_date_raises iso_to_datetime bad_dates_frame 0 labels3);
    try reflexivity.
  intros [|[|j]] H; try reflexivity; try discriminate H.
  destruct j; discriminate H.
Defined.

Lemma Forall2_map_left {A : Type} (R : A -> A -> Prop) (f : A -> A) (l : list A) :
  (forall x, In x l -> R (f x) x) -> Forall2 R (map f l) l.
Proof.
  induction l as [|a l IH]; intros H; simpl; constructor.
  - apply H. now left.
  - apply IH. intros x Hx. apply H. now right.
Qed.

(** What a successful normalization hands to the rest of the script:
    nothing was shown; the table has exactly one column labelled Date, the
    first one whose name contains "date"; it has a column labelled Sales;
    and every column carries either its trimmed, lower-cased name or one of
    the three canonical names. *)
Theorem normalize_postcondition (to_datetime : Series -> option Series)
    (df df' : DataFrame) (tr : list event) :
  normalize to_datetime (Some df) = (tr, Done df') ->
  tr = [] /\
  (exists i, first_match "date" (names_of df) = Some i /\
             forall j, nth_error (columns df') j = Some "Date" <-> j = i) /\
  In "Sales" (columns df') /\
  Forall2 (fun c n => c = n \/ c = "Date" \/ c = "Sales" \/ c = "Category")
          (columns df') (names_of df).
Proof.
  intros Hrun.
  destruct (normalize_Done_date_column _ _ _ _ Hrun)
    as (i & _ & _ & D & Hi & _ & _ & _ & HiD & _ & Honly).
  destruct (normalize_Done _ _ _ _ Hrun)
    as (col0 & cols & data & data1 & d1 & s1 & c1 & data' & data2 &
        Hm & _ & _ & Hd1 & Hs1 & Hc1 & _ & _ & Hdf' & Htr).
  set (df2 := second_pass_frame col0 data1 df) in *.
  assert (Hd : d1 = "date").
  { unfold matching in Hm, Hd1. rewrite columns_standardize in Hm.
    unfold df2 in Hd1.
    rewrite second_pass_columns, (second_pass_date_head _ _ _ Hm) in Hd1.
    congruence. }
  destruct (matching_head_In _ _ _ Hs1) as [Hs1in Hs1c].
  destruct (matching_head_In _ _ _ Hc1) as [Hc1in Hc1c].
  assert (Hlower : forall n, In n (columns df2) ->
                     n <> "Date" /\ n <> "Sales" /\ n <> "Category")
    by (intros n; apply second_pass_lowercase).
  assert (Hs1_date : s1 <> "date") by (intros ->; discriminate).
  destruct (Hlower _ Hc1in) as (_ & Hc1S & _).
  assert (HL : columns df' = map (loop_name s1 c1) (columns df2)).
  { rewrite Hdf', columns_setitem. now apply columns_loop. }
  split; [exact Htr|]. split; [|split].
  - exists i. split; [exact Hi|]. intros j. split.
    + intros Hj. destruct (Nat.eq_dec j i) as [|Hne]; [assumption|].
      now destruct (Honly j Hne).
    + intros ->. unfold columns. now rewrite nth_error_map, HiD.
  - rewrite HL. apply in_map_iff. exists s1. split; [|exact Hs1in].
    now apply loop_name_sales.
  - rewrite HL. unfold df2. rewrite second_pass_columns, map_map.
    apply Forall2_map_left. intros n Hn.
    assert (Hn2 : In (relabel col0 "date" n) (columns df2)).
    { unfold df2. rewrite second_pass_columns. now apply in_map. }
    destruct (loop_name_cases s1 c1 (columns df2) Hlower Hs1in Hc1in _ Hn2)
      as [[_ ->] | [[_ ->] | [(_ & _ & ->) | (Hnd & _ & _ & ->)]]]; auto.
    left. unfold relabel in *.
    destruct (String.eqb n col0); [congruence | reflexivity].
Qed.

Lemma normalize_postcondition_witness :
  In "Sales" (columns plain_normalized).
Proof.
  destruct (normalize_postcondition iso_to_datetime plain_frame
              plain_normalized [] eq_refl) as (_ & _ & H & _).
  exact H.
Defined.

(** A successful normalization yields a Category column exactly when, among
    the names as the second pass reads them, the first one containing
    "sales" and the first one containing "category" are different columns.
    When one column is first for both, it becomes Sales, the renaming to
    Category finds nothing, and the run goes on without a Category
    column. *)
Theorem category_column_iff (to_datetime : Series -> option Series)
    (df df' : DataFrame) (tr : list event) :
  normalize to_datetime (Some df) = (tr, Done df') ->
  (In "Category" (columns df') <->
   first_match "sales" (second_pass_names (names_of df))
   <> first_match "category" (second_pass_names (names_of df))).
Proof.
  intros Hrun.
  destruct (normalize_Done _ _ _ _ Hrun)
    as (col0 & cols & data & data1 & d1 & s1 & c1 & data' & data2 &
        Hm & _ & _ & Hd1 & Hs1 & Hc1 & _ & _ & Hdf' & _).
  set (df2 := second_pass_frame col0 data1 df) in *.
  assert (Hd : d1 = "date").
  { unfold matching in Hm, Hd1. rewrite columns_standardize in Hm.
    unfold df2 in Hd1.
    rewrite second_pass_columns, (second_pass_date_head _ _ _ Hm) in Hd1.
    congruence. }
  assert (Hnames : second_pass_names (names_of df) = columns df2).
  { unfold second_pass_names, matching in *. rewrite columns_standardize in Hm.
    rewrite Hm. unfold df2. now rewrite second_pass_columns. }
  rewrite Hnames.
  destruct (matching_head_In _ _ _ Hs1) as [Hs1in Hs1c].
  destruct (matching_head_In _ _ _ Hc1) as [Hc1in Hc1c].
  assert (Hlower : forall n, In n (columns df2) ->
                     n <> "Date" /\ n <> "Sales" /\ n <> "Category")
    by (intros n; apply second_pass_lowercase).
  assert (Hc1_date : c1 <> "date") by (intros ->; discriminate).
  assert (HL : columns df' = map (loop_name s1 c1) (columns df2)).
  { rewrite Hdf', columns_setitem. now apply columns_loop. }
  unfold matching in Hs1, Hc1.
  pose proof (first_match_spec "sales" (columns df2)) as Hss.
  pose proof (first_match_spec "category" (columns df2)) as Hsc.
  destruct (first_match "sales" (columns df2)) as [a|];
    [|rewrite Hss in Hs1; discriminate].
  destruct (first_match "category" (columns df2)) as [b|];
    [|rewrite Hsc in Hc1; discriminate].
  destruct Hss as (x & Ha & _ & Hx & Hbefore_a). rewrite Hs1 in Hx.
  injection Hx as <-.
  destruct Hsc as (x & Hb & _ & Hx & Hbefore_b). rewrite Hc1 in Hx.
  injection Hx as <-.
  split.
  - intros Hcat Heq. injection Heq as <-.
    assert (Hsame : c1 = s1) by congruence.
    rewrite HL in Hcat. apply in_map_iff in Hcat as (n & Hn & Hin).
    destruct (loop_name_cases s1 c1 (columns df2) Hlower Hs1in Hc1in n Hin)
      as [[_ H] | [[_ H] | [(-> & H & _) | (_ & _ & _ & H)]]];
      try congruence.
    rewrite H in Hn. subst n. apply Hlower in Hin. tauto.
  - intros Hne. rewrite HL. apply in_map_iff. exists c1.
    split; [|exact Hc1in]. apply loop_name_category; [exact Hc1_date|].
    intros Hsame. subst c1. apply Hne. f_equal.
    destruct (Nat.lt_trichotomy a b) as [Hlt | [Heq | Hgt]]; [|exact Heq|].
    + rewrite (Hbefore_b a s1 Hlt Ha) in Hc1c. discriminate.
    + rewrite (Hbefore_a b s1 Hgt Hb) in Hs1c. discriminate.
Qed.

Lemma category_column_iff_witness :
  exists df',
    normalize iso_to_datetime (Some sales_category_frame) = ([], Done df') /\
    ~ In "Category" (columns df').
Proof.
  exists [ ("Date", timestamps3); ("Sales", units3); ("category", labels3) ].
  split; [reflexivity|].
  intros Hin.
  apply (category_column_iff iso_to_datetime sales_category_frame _ []
           eq_refl) in Hin.
  apply Hin. reflexivity.
Defined.

(** ** Category selection (lines 123-132) *)

Lemma unique_from_NoDup (l : list string) :
  forall seen, NoDup (unique_from seen l).
Proof.
  induction l as [|x l IH]; intros seen; simpl; [constructor|].
  destruct (existsb (String.eqb x) seen); [apply IH|].
  constructor; [|apply IH].
  intros Hin. apply unique_from_In in Hin as [_ Hn]. apply Hn. now left.
Qed.

Lemma unique_from_subsequence (l : list string) :
  forall seen, subsequence (unique_from seen l) l.
Proof.
  induction l as [|x l IH]; intros seen; simpl; [constructor|].
  destruct (existsb (String.eqb x) seen); constructor; apply IH.
Qed.

Lemma subsequence_trans {A : Type} (l1 l2 l3 : list A) :
  subsequence l1 l2 -> subsequence l2 l3 -> subsequence l1 l3.
Proof.
  intros H12 H23. revert l1 H12.
  induction H23 as [|x l2 l3 H IH|x l2 l3 H IH]; intros l1 H12.
  - exact H12.
  - constructor. now apply IH.
  - inversion H12; subst.
    + apply sub_skip. now apply IH.
    + apply sub_keep. now apply IH.
Qed.

Lemma seen_In (x : string) (seen : list string) :
  existsb (String.eqb x) seen = true <-> In x seen.
Proof.
  rewrite existsb_exists. split.
  - intros (y & Hy & Heq). apply String.eqb_eq in Heq. now subst.
  - intros Hx. exists x. split; [exact Hx | apply String.eqb_refl].
Qed.

(** Where a value stands in the distinct values: after those, and only
    those, that appear before its first occurrence. *)
Lemma unique_from_split (l : list string) :
  forall seen u1 c u2,
    unique_from seen l = (u1 ++ c :: u2)%list ->
    exists l1 l2,
      l = (l1 ++ c :: l2)%list /\ ~ In c l1 /\ ~ In c seen /\
      forall d, In d u1 <-> In d l1 /\ ~ In d seen.
Proof.
  induction l as [|x l IH]; intros seen u1 c u2 Hu; cbn [unique_from] in Hu.
  - destruct u1; discriminate.
  - destruct (existsb (String.eqb x) seen) eqn:Hx.
    + apply seen_In in Hx.
      destruct (IH _ _ _ _ Hu) as (l1 & l2 & -> & Hc & Hs & Hd).
      exists (x :: l1), l2. split; [reflexivity|]. split; [|split; [exact Hs|]].
      * intros [-> | Hin]; [now apply Hs | now apply Hc].
      * intros d. rewrite Hd. split.
        -- intros [H1 H2]. split; [now right | exact H2].
        -- intros [[-> | H1] H2]; [contradiction | now split].
    + assert (Hnx : ~ In x seen)
        by (intros Hin; apply seen_In in Hin; congruence).
      destruct u1 as [|y u1]; cbn [app] in Hu; injection Hu as <- Hu.
      * exists [], l. split; [reflexivity|]. split; [intros []|].
        split; [exact Hnx|]. intros d. simpl. tauto.
      * destruct (IH _ _ _ _ Hu) as (l1 & l2 & -> & Hc & Hs & Hd).
        exists (x :: l1), l2. split; [reflexivity|].
        split; [|split].
        -- intros [-> | Hin]; [apply Hs; now left | now apply Hc].
        -- intros Hin. apply Hs. now right.
        -- intros d. split.
           ++ intros [<- | Hin]; [split; [now left | exact Hnx]|].
              apply Hd in Hin as [H1 H2]. split; [now right|].
              intros H. apply H2. now right.
           ++ intros [[<- | H1] H2]; [now left|].
              destruct (string_dec x d) as [<- | Hne]; [now left|].
              right. apply Hd. split; [exact H1|].
              intros [H | H]; [contradiction | now apply H2].
Qed.

Lemma filter_split {A : Type} (f : A -> bool) (l : list A) :
  forall s1 c s2,
    filter f l = (s1 ++ c :: s2)%list ->
    exists u1 u2, l = (u1 ++ c :: u2)%list /\ filter f u1 = s1.
Proof.
  induction l as [|x l IH]; intros s1 c s2 Hf; cbn [filter] in Hf.
  - destruct s1; discriminate.
  - destruct (f x) eqn:Hx.
    + destruct s1 as [|y s1]; cbn [app] in Hf; injection Hf as <- Hf.
      * exists [], l. split; reflexivity.
      * destruct (IH _ _ _ Hf) as (u1 & u2 & -> & <-).
        exists (x :: u1), u2. split; [reflexivity|].
        cbn [filter]. now rewrite Hx.
    + destruct (IH _ _ _ Hf) as (u1 & u2 & -> & <-).
      exists (x :: u1), u2. split; [reflexivity|].
      cbn [filter]. now rewrite Hx.
Qed.

(** The boxes: one per distinct category, in the order in which the
    categories first appear in the table.  The selection lists each ticked
    category of the table once, and in that order: the categories listed
    before a category [c] are the ticked ones among those that the table
    shows before the first row of [c]. *)
Theorem selected_categories_distinct (chk : string -> bool) (t : SalesTable) :
  NoDup (selected_categories chk t) /\
  subsequence (selected_categories chk t) (categories_of t) /\
  (forall c, In c (selected_categories chk t)
             <-> In c (categories_of t) /\ chk c = true) /\
  (forall s1 c s2,
     selected_categories chk t = (s1 ++ c :: s2)%list ->
     exists l1 l2,
       categories_of t = (l1 ++ c :: l2)%list /\ ~ In c l1 /\
       forall d, In d s1 <-> In d l1 /\ chk d = true).
Proof.
  unfold selected_categories, categories_of.
  destruct t as [|r t']; cbn [empty negb].
  - split; [constructor|]. split; [constructor|].
    split; [intros c; simpl; tauto|].
    intros s1 c s2 H. destruct s1; discriminate.
  - set (cats := map (fun r => Category (snd r)) (r :: t')).
    split; [|split; [|split]].
    + apply NoDup_filter, unique_from_NoDup.
    + apply (subsequence_trans _ (unique cats)).
      * apply subsequence_filter.
      * apply unique_from_subsequence.
    + intros c. rewrite filter_In. split.
      * intros [H Hc]. split; [now apply (proj1 (unique_In _ _)) | exact Hc].
      * intros [H Hc]. split; [now apply (proj2 (unique_In _ _)) | exact Hc].
    + intros s1 c s2 Hsel.
      destruct (filter_split _ _ _ _ _ Hsel) as (u1 & u2 & Hu & <-).
      destruct (unique_from_split _ _ _ _ _ Hu) as (l1 & l2 & Hl & Hc & _ & Hd).
      exists l1, l2. split; [exact Hl|]. split; [exact Hc|].
      intros d. rewrite filter_In, Hd. simpl. tauto.
Qed.

(** With every box ticked, which is how the boxes start, the filtered
    table is the whole table. *)
Theorem all_ticked_keeps_table (chk : string -> bool) (t : SalesTable) :
  (forall c, In c (categories_of t) -> chk c = true) ->
  filtered_data chk t = t.
Proof.
  intros Hall. rewrite filtered_data_checkbox.
  induction t as [|r t IH]; simpl; [reflexivity|].
  rewrite (Hall (Category (snd r))) by (simpl; auto).
  f_equal. apply IH. intros c Hc. apply Hall. simpl. auto.
Qed.

Lemma all_ticked_keeps_table_witness :
  filtered_data all_checked (RangeIndex scenario_rows) = RangeIndex scenario_rows.
Proof.
  apply (all_ticked_keeps_table all_checked (RangeIndex scenario_rows)).
  intros c _. reflexivity.
Defined.

Lemma In_combine_seq {A : Type} (l : list A) :
  forall start i x,
    In (i, x) (combine (seq start (List.length l)) l)
    <-> start <= i /\ nth_error l (i - start) = Some x.
Proof.
  induction l as [|a l IH]; intros start i x; simpl.
  - split; [intros [] | intros [_ H]]. destruct (i - start); discriminate.
  - rewrite IH. split.
    + intros [H | [Hle Hnth]].
      * injection H as <- <-. split; [lia|]. now rewrite Nat.sub_diag.
      * split; [lia|]. replace (i - start) with (S (i - S start)) by lia.
        exact Hnth.
    + intros [Hle Hnth]. destruct (Nat.eq_dec i start) as [->|Hne].
      * left. rewrite Nat.sub_diag in Hnth. simpl in Hnth. congruence.
      * right. split; [lia|].
        replace (i - start) with (S (i - S start)) in Hnth by lia.
        exact Hnth.
Qed.

(** Filtering keeps the row labels: the filtered table holds a row under
    label [l] exactly when it is row number [l] of the input (counting from
    0) and its category is ticked. *)
Theorem filtered_row_labels (chk : string -> bool) (rows : list SalesRecord)
    (l : nat) (r : SalesRecord) :
  In (l, r) (filtered_data chk (RangeIndex rows))
  <-> nth_error rows l = Some r /\ chk (Category r) = true.
Proof.
  rewrite filtered_data_checkbox, filter_In. unfold RangeIndex.
  rewrite In_combine_seq, Nat.sub_0_r. simpl. split.
  - intros [[_ H] Hc]. auto.
  - intros [H Hc]. repeat split; auto. lia.
Qed.

(** ** Metrics (lines 139-141) *)

Lemma wrap64_add_r (a x : Z) : wrap64 (a + wrap64 x) = wrap64 (a + x).
Proof. now rewrite Z.add_comm, wrap64_add_l, Z.add_comm. Qed.

Lemma wrap64_sum_wrapped (xs : list Z) :
  wrap64 (arithmetic_sum (map wrap64 xs)) = wrap64 (arithmetic_sum xs).
Proof.
  induction xs as [|x xs IH]; [reflexivity|].
  unfold arithmetic_sum in *. cbn [map fold_right].
  rewrite wrap64_add_l, <- wrap64_add_r, IH. apply wrap64_add_r.
Qed.

Lemma insert_sorted_NoDup (k : string) (l : list string) :
  NoDup l -> ~ In k l -> NoDup (insert_sorted k l).
Proof.
  induction l as [|x l IH]; simpl; intros Hnd Hk.
  - constructor; [auto | constructor].
  - destruct (String.leb k x).
    + constructor; assumption.
    + inversion Hnd as [|? ? Hx Hnd']; subst. constructor.
      * rewrite insert_sorted_In. intros [-> | H]; tauto.
      * apply IH; tauto.
Qed.

Lemma sort_keys_NoDup (l : list string) : NoDup l -> NoDup (sort_keys l).
Proof.
  induction l as [|x l IH]; simpl; intros Hnd; [constructor|].
  inversion Hnd as [|? ? Hx Hnd']; subst.
  apply insert_sorted_NoDup; [now apply IH|].
  now rewrite sort_keys_In.
Qed.

Lemma isin_cons (c k : string) (keys : list string) :
  isin c (k :: keys) = String.eqb c k || isin c keys.
Proof. reflexivity. Qed.

Lemma sum_cons (r : nat * SalesRecord) (t : SalesTable) :
  arithmetic_sum (sales_of (r :: t))
  = (Sales (snd r) + arithmetic_sum (sales_of t))%Z.
Proof. reflexivity. Qed.

Lemma sum_filter_split (fd : SalesTable) (k : string) (keys : list string) :
  ~ In k keys ->
  arithmetic_sum
    (sales_of (filter (fun r => isin (Category (snd r)) (k :: keys)) fd))
  = (arithmetic_sum
       (sales_of (filter (fun r => String.eqb (Category (snd r)) k) fd))
     + arithmetic_sum
         (sales_of (filter (fun r => isin (Category (snd r)) keys) fd)))%Z.
Proof.
  intros Hk. induction fd as [|r fd IH]; [reflexivity|].
  cbn [filter]. rewrite isin_cons.
  destruct (String.eqb_spec (Category (snd r)) k) as [Heq|Hne];
    destruct (isin (Category (snd r)) keys) eqn:Hin; cbn [orb].
  - exfalso. apply Hk. rewrite <- Heq. now apply isin_In.
  - rewrite !sum_cons, IH. lia.
  - rewrite !sum_cons, IH. lia.
  - exact IH.
Qed.

(** The rows of the listed categories, category by category. *)
Lemma category_totals_partition (fd : SalesTable) (keys : list string) :
  NoDup keys ->
  arithmetic_sum (map (category_total fd) keys)
  = arithmetic_sum
      (sales_of (filter (fun r => isin (Category (snd r)) keys) fd)).
Proof.
  induction keys as [|k keys IH]; intros Hnd.
  - cbn [map]. induction fd as [|r fd IHfd]; [reflexivity | exact IHfd].
  - inversion Hnd as [|? ? Hk Hnd']; subst.
    rewrite (sum_filter_split fd k keys Hk), <- (IH Hnd'). reflexivity.
Qed.

(** The Total Sales metric agrees with the sums by category: adding up
    the group sums the way pandas adds a column gives the total. *)
Theorem total_is_sum_of_groups (fd : SalesTable) :
  total_sales fd = Series_sum (map snd (groupby_sum fd)).
Proof.
  unfold total_sales, groupby_sum. rewrite !Series_sum_wrap, map_map.
  cbn [snd].
  set (keys := sort_keys (unique (map (fun r => Category (snd r)) fd))).
  rewrite (map_ext (group_sum fd) (fun k => wrap64 (category_total fd k)))
    by apply group_sum_wrap.
  rewrite <- (map_map (category_total fd) wrap64), wrap64_sum_wrapped.
  rewrite category_totals_partition
    by (apply sort_keys_NoDup, unique_from_NoDup).
  assert (Hall : filter (fun r => isin (Category (snd r)) keys) fd = fd).
  { apply forallb_filter_id, forallb_forall. intros r Hr. apply isin_In.
    unfold keys. apply (proj2 (sort_keys_In _ _)), (proj2 (unique_In _ _)).
    now apply (in_map (fun r => Category (snd r))). }
  now rewrite Hall.
Qed.

(** *** The order of the group keys *)

Lemma string_compare_le_trans (a b c : string) :
  String.compare a b <> Gt -> String.compare b c <> Gt ->
  String.compare a c <> Gt.
Proof.
  revert b c. induction a as [|x a IH]; intros [|y b] [|z c];
    cbn [String.compare]; try congruence.
  unfold Ascii.compare.
  destruct (N.compare_spec (N_of_ascii x) (N_of_ascii y)) as [Hxy|Hxy|Hxy];
    try congruence;
    destruct (N.compare_spec (N_of_ascii y) (N_of_ascii z)) as [Hyz|Hyz|Hyz];
    try congruence.
  - rewrite Hxy, Hyz, N.compare_refl. apply IH.
  - rewrite Hxy. apply N.compare_lt_iff in Hyz. rewrite Hyz. congruence.
  - rewrite <- Hyz. apply N.compare_lt_iff in Hxy. rewrite Hxy. congruence.
  - assert (H : (N_of_ascii x < N_of_ascii z)%N) by lia.
    apply N.compare_lt_iff in H. rewrite H. congruence.
Qed.

Lemma string_leb_trans (a b c : string) :
  String.leb a b = true -> String.leb b c = true -> String.leb a c = true.
Proof.
  unfold String.leb. intros Hab Hbc.
  pose proof (string_compare_le_trans a b c) as H.
  destruct (String.compare a b); try discriminate;
    destruct (String.compare b c); try discriminate;
    destruct (String.compare a c); try reflexivity;
    exfalso; apply H; congruence.
Qed.

Lemma string_leb_refl (a : string) : String.leb a a = true.
Proof. destruct (String.leb_total a a); assumption. Qed.

Lemma insert_sorted_ascending (k : string) (l : list string) :
  ascending l -> ascending (insert_sorted k l).
Proof.
  induction l as [|x l IH]; cbn [insert_sorted ascending].
  - intros _. split; [intros y [] | exact I].
  - intros [Hx Hl]. destruct (String.leb k x) eqn:Hkx; cbn [ascending].
    + split; [|split; assumption].
      intros y [<- | Hy]; [exact Hkx|].
      apply (string_leb_trans k x y); auto.
    + split; [|now apply IH].
      intros y Hy. apply insert_sorted_In in Hy as [-> | Hy]; [|auto].
      destruct (String.leb_total k x); congruence.
Qed.

Lemma sort_keys_ascending (l : list string) : ascending (sort_keys l).
Proof.
  induction l as [|x l IH]; simpl; [exact I|].
  now apply insert_sorted_ascending.
Qed.

Lemma ascending_after (l1 l2 : list string) (x y : string) :
  ascending (l1 ++ x :: l2)%list -> In y l2 -> String.leb x y = true.
Proof.
  induction l1 as [|a l1 IH]; cbn [app ascending]; intros [Ha Hl] Hy.
  - now apply Ha.
  - now apply IH.
Qed.

(** The Top Selling Category of a non-empty table, whatever its rows: a
    category of the table whose sum, as pandas computes it, no other
    category's sum exceeds; and among the categories that reach this sum,
    the first in the order of the group keys, which [groupby] sorts. *)
Theorem top_category_tie_break (fd : SalesTable) :
  fd <> [] ->
  exists k,
    top_category fd = Done k /\
    In k (categories_of fd) /\
    forall c, In c (categories_of fd) ->
      (group_sum fd c <= group_sum fd k)%Z /\
      (group_sum fd c = group_sum fd k -> String.leb k c = true).
Proof.
  intros Hne.
  assert (Hg : groupby_sum fd <> []).
  { destruct fd as [|r fd']; [congruence|]. intros Hnil.
    assert (Hin : In (Category (snd r), group_sum (r :: fd') (Category (snd r)))
                     (groupby_sum (r :: fd')))
      by (apply groupby_sum_In; split; [now left | reflexivity]).
    rewrite Hnil in Hin. contradiction. }
  destruct (idxmax_first_max (groupby_sum fd) Hg)
    as (pre & k & v & post & Hidx & Hsplit & Hpre & Hpost).
  assert (Hk : In (k, v) (groupby_sum fd))
    by (rewrite Hsplit; apply in_or_app; right; now left).
  apply groupby_sum_In in Hk as [Hkin ->].
  assert (Hkeys : ascending (map fst pre ++ k :: map fst post)%list).
  { change (k :: map fst post) with (map fst ((k, group_sum fd k) :: post)).
    rewrite <- map_app, <- Hsplit. unfold groupby_sum. rewrite map_map.
    cbn [fst]. rewrite map_id. apply sort_keys_ascending. }
  exists k. split; [|split; [exact Hkin|]].
  - unfold top_category. rewrite Hidx.
    destruct fd; [congruence | reflexivity].
  - intros c Hc.
    assert (Hin : In (c, group_sum fd c) (groupby_sum fd))
      by (apply groupby_sum_In; auto).
    rewrite Hsplit in Hin. apply in_app_or in Hin as [Hin | [Heq | Hin]].
    + rewrite Forall_forall in Hpre. specialize (Hpre _ Hin). simpl in Hpre.
      split; lia.
    + injection Heq as <- _. split; [lia|]. intros _. apply string_leb_refl.
    + rewrite Forall_forall in Hpost. pose proof (Hpost _ Hin) as Hle.
      simpl in Hle. split; [exact Hle|]. intros _.
      apply (ascending_after _ _ _ _ Hkeys).
      now apply (in_map fst) in Hin.
Qed.

Lemma top_category_tie_break_witness :
  group_sum (RangeIndex tie_rows) "Shoes" = group_sum (RangeIndex tie_rows) "Dresses" /\
  top_category (RangeIndex tie_rows) = Done "Dresses".
Proof.
  split; [reflexivity|].
  destruct (top_category_tie_break (RangeIndex tie_rows)) as (k & Hk & _).
  - discriminate.
  - rewrite Hk. f_equal.
    assert (H : top_category (RangeIndex tie_rows) = Done "Dresses")
      by reflexivity.
    congruence.
Defined.

(** ** The page (lines 135-172) *)

(** The run of the page ends well exactly when the filtered table is
    empty or neither fitting nor predicting raises, and the table at the
    bottom of the page is shown in exactly those runs: an exception of the
    model takes the table with it.  The Total Sales metric and the trend
    chart are shown in every run. *)
Theorem data_table_shown_iff
    (fit_raises : list (Timestamp * Z) -> bool)
    (predict_raises : list (Timestamp * Z) -> nat -> bool)
    (w : widgets) (rows : list SalesRecord) :
  let fd := filtered_data (checkbox w) (RangeIndex rows) in
  let history := map (fun r => (Date (snd r), Sales (snd r))) fd in
  let run := page fit_raises predict_raises w (RangeIndex rows) in
  (outcome run = Done tt <->
   fd = [] \/ (fit_raises history = false /\
               predict_raises history (forecast_period w) = false)) /\
  (In (st_dataframe fd) (trace run) <-> outcome run = Done tt) /\
  In (st_metric "Total Sales" (total_sales_metric fd)) (trace run) /\
  In (st_plotly_chart (fig_trend fd)) (trace run).
Proof.
  intros fd history run.
  destruct fd as [|r0 fd'] eqn:Hfd.
  - unfold run. rewrite (page_empty _ _ _ _ Hfd).
    unfold trace, outcome. cbn [fst snd].
    repeat split; auto; intros; simpl; tauto.
  - destruct (page_nonempty fit_raises predict_raises w rows)
      as (top & day & Hrun).
    { fold fd. rewrite Hfd. discriminate. }
    cbv zeta in Hrun. fold fd in Hrun. rewrite Hfd in Hrun.
    fold history in Hrun. unfold run. rewrite Hrun.
    unfold trace, outcome. cbn [fst snd].
    destruct (fit_raises history) eqn:Hfit;
      [|destruct (predict_raises history (forecast_period w)) eqn:Hpred].
    + repeat split; try (intros; simpl; tauto).
      * discriminate.
      * intros [H | [H _]]; discriminate.
      * intros Hin. exfalso. apply in_app_or in Hin as [Hin | []].
        simpl in Hin.
        repeat (destruct Hin as [Hin | Hin]; [discriminate|]). exact Hin.
      * discriminate.
    + repeat split; try (intros; simpl; tauto).
      * discriminate.
      * intros [H | [_ H]]; discriminate.
      * intros Hin. exfalso. apply in_app_or in Hin as [Hin | Hin];
          simpl in Hin;
          repeat (destruct Hin as [Hin | Hin]; [discriminate|]); exact Hin.
      * discriminate.
    + repeat split; intros; simpl; tauto.
Qed.
